(** * Verus market-data pipeline: discovery, valuation and aggregation

    A shallow embedding of the converter discovery
    ([converter_discovery.py], [dict.py]), the liquidity calculator
    ([liquidity_calculator.py]), the pair extractor
    ([data_integration.py]) and the i-address aggregation
    ([ticker_formatting.py]), together with the properties the
    specification states about them.

    Conventions of the embedding.
    - Python floats are exact rationals ([Q]); binary64 rounding is outside
      the model.  Comparisons are the boolean ones of [Q].
    - A dict with a fixed set of keys is a record; a key that may be absent
      is an [option] field and [d.get(k, v)] is [default v (k d)].
    - A dict used as a map is a [gmap] with string keys.
    - A [try ... except Exception] block is an [option]-valued body ([None]
      when the body raises) followed by the handler's value.
    - Every call that leaves the process (daemon RPC, environment, the
      interpreter's [float] on strings) is a section variable, so every
      theorem holds for all daemon replies and all environments. *)

From Stdlib Require Import QArith Qround Qabs Qfield Lqa ZArith NArith Ascii List Sorted Lia.
From stdpp Require Import base option list gmap strings.

Local Open Scope string_scope.
Local Open Scope list_scope.
Local Open Scope Q_scope.

(** ** Python comparisons on floats *)

Definition py_le (x y : Q) : bool := Qle_bool x y.
Definition py_lt (x y : Q) : bool := negb (Qle_bool y x).
Definition py_ge (x y : Q) : bool := py_le y x.
Definition py_gt (x y : Q) : bool := py_lt y x.

(** [s.startswith(p)] *)
Definition startswith (s p : string) : bool := String.prefix p s.

(** [not s] for a string that may be [None]: true on [None] and on [''] *)
Definition falsy_str (o : option string) : bool :=
  match o with
  | None => true
  | Some s => String.eqb s ""
  end.

(** ** Data model *)

(** An element of [lastnotarization.currencystate.reservecurrencies] as the
    daemon reports it. *)
Record raw_reserve := {
  currencyid : option string;
  raw_weight : option Q;
  raw_reserves : option Q;
  priceinreserve : option Q
}.

Record currency_state := {
  state_supply : option Q;
  reservecurrencies : option (list raw_reserve)
}.

Record notarization := {
  currencystate : option currency_state
}.

(** An element of [reserve_currencies] of a processed converter. *)
Record reserve_info := {
  rcurrency_id : string;
  ticker : string;
  weight : Q;
  reserves : Q;
  price_in_reserve : Q
}.

(** A converter dict as [getcurrencyconverters] returns it, with the keys
    the pipeline reads.  [first_other_key] is the first key of the dict, in
    the daemon's order, that is none of [fullyqualifiedname], [height],
    [output], [lastnotarization] (for a daemon reply: the converter's
    i-address).  [source_chain] is absent in a daemon reply and set by the
    discovery loop. *)
Record converter := {
  first_other_key : option string;
  fullyqualifiedname : option string;
  currencyname : option string;
  source_chain : option string;
  reserve_currencies : option (list reserve_info);
  lastnotarization : option notarization;
  flat_reserves : option (gmap string Q)
}.

(** [converter['source_chain'] = chain] *)
Definition set_source_chain (chain : string) (c : converter) : converter :=
  {| first_other_key := first_other_key c;
     fullyqualifiedname := fullyqualifiedname c;
     currencyname := currencyname c;
     source_chain := Some chain;
     reserve_currencies := reserve_currencies c;
     lastnotarization := lastnotarization c;
     flat_reserves := flat_reserves c |}.

(** The dict [extract_converter_info] builds; [name], [currency_id] and
    [supply] start as [None]. *)
Record converter_info := {
  name : option string;
  currency_id : option string;
  supply : option Q;
  info_reserve_currencies : list reserve_info;
  info_source_chain : string;
  chain : string;
  currencies : list string;
  total_liquidity_usd : Q;
  raw_data : converter
}.

(** Number of converters of a list that carry a given name. *)
Definition count_named (n : string) (l : list converter) : nat :=
  length (List.filter (fun c => bool_decide (fullyqualifiedname c = Some n)) l).

Definition count_info_named (n : string) (l : list converter_info) : nat :=
  length (List.filter (fun i => bool_decide (name i = Some n)) l).

(** ** Converter discovery ([converter_discovery.py], [dict.py]) *)

Module Discovery.

(** What [make_rpc_call(chain, "getcurrencyconverters", [system_id])] can
    hand back: an exception, [None], a list, or some other JSON value. *)
Inductive converters_reply :=
  | ReplyRaises
  | ReplyNone
  | ReplyList (l : list converter)
  | ReplyOther.

(** The fixed home-chain table of [filter_bridge_converters_by_chain]. *)
Definition bridge_converter_chains : gmap string string :=
  <["Bridge.CHIPS" := "CHIPS"]>
  (<["Bridge.vARRR" := "VARRR"]>
  (<["Bridge.vDEX" := "VDEX"]>
  (<["Bridge.vETH" := "VRSC"]> ∅))).

(** The [for converter in converters_data] loop of
    [filter_bridge_converters_by_chain], with its two accumulators. *)
Fixpoint bridge_filter_loop (chain : string) (converters_data : list converter)
    (filtered_converters : list converter) (excluded_count : nat)
    : list converter * nat :=
  match converters_data with
  | [] => (filtered_converters, excluded_count)
  | converter :: rest =>
      let converter_name := default "" (fullyqualifiedname converter) in
      if startswith converter_name "Bridge." then
        let expected_chain := bridge_converter_chains !! converter_name in
        if bool_decide (expected_chain = Some chain) then
          bridge_filter_loop chain rest (filtered_converters ++ [converter]) excluded_count
        else
          bridge_filter_loop chain rest filtered_converters (S excluded_count)
      else
        bridge_filter_loop chain rest (filtered_converters ++ [converter]) excluded_count
  end.

Definition filter_bridge_converters_by_chain
    (converters_data : list converter) (chain : string) : list converter :=
  fst (bridge_filter_loop chain converters_data [] 0%nat).

(** The decision the loop takes for one converter. *)
Definition kept_on_chain (chain : string) (c : converter) : bool :=
  let converter_name := default "" (fullyqualifiedname c) in
  if startswith converter_name "Bridge." then
    bool_decide (bridge_converter_chains !! converter_name = Some chain)
  else true.

(** Chain name to native currency i-address, from
    [get_native_token_holdings]. *)
Definition chain_currency_ids : gmap string string :=
  <["VRSC" := "i5w5MuNik5NtLcYmNzcvaoixooEebB6MGV"]>
  (<["CHIPS" := "iJ3WZocnjG9ufv7GKUA4LijQno5gTMb7tP"]>
  (<["VARRR" := "iExBJfZYK7KREDpuhj6PzZBzqMAKaFg7d2"]>
  (<["VDEX" := "iHog9UCTrn95qpUBFCZ7kKz7qWdMA8MQ6N"]> ∅))).

(** [get_native_token_holdings]: the three reserve encodings, tried in the
    order of the [if]/[elif] chain; nothing found gives [0.0]. *)
Definition get_native_token_holdings (converter : converter) (chain : string) : Q :=
  match reserve_currencies converter with
  | Some reserve_currencies =>
      match List.find (fun reserve => String.eqb (ticker reserve) chain) reserve_currencies with
      | Some reserve => reserves reserve
      | None => 0
      end
  | None =>
    match lastnotarization converter with
    | Some ln =>
        let reserve_currencies :=
          match currencystate ln with
          | Some currency_state => default [] (reservecurrencies currency_state)
          | None => []
          end in
        let by_id :=
          match chain_currency_ids !! chain with
          | Some target_currency_id =>
              if String.eqb target_currency_id "" then None
              else List.find (fun reserve =>
                     bool_decide (currencyid reserve = Some target_currency_id))
                     reserve_currencies
          | None => None
          end in
        match by_id with
        | Some reserve => default 0 (raw_reserves reserve)
        | None =>
            match List.find (fun reserve =>
                    String.eqb (default "" (currencyid reserve)) chain)
                    reserve_currencies with
            | Some reserve => default 0 (raw_reserves reserve)
            | None => 0
            end
        end
    | None =>
      match flat_reserves converter with
      | Some reserves =>
          let native_currency := chain in
          match reserves !! native_currency with
          | Some amount => amount
          | None =>
              match List.find (fun kv => String.eqb (fst kv) native_currency)
                      (map_to_list reserves) with
              | Some kv => snd kv
              | None => 0
              end
          end
      | None => 0
      end
    end
  end.

Section World.

(** The daemon, the environment after [load_dotenv], the interpreter's
    [float] on strings ([None] when it raises [ValueError]), the currency
    mapping file behind [get_ticker_by_id], and the session's pinned
    block height. *)
Variable make_rpc_call : string -> string -> converters_reply.
Variable getenv : string -> option string.
Variable float_of_string : string -> option Q.
Variable get_ticker_by_id : string -> string.
Variable get_session_block_height : Z.

(** [get_all_converters]: [None] on failure, the list otherwise. *)
Definition get_all_converters (system_id : option string) (chain : string)
    : option (list converter) :=
  let system_id := default chain system_id in
  match make_rpc_call chain system_id with
  | ReplyRaises => None
  | ReplyNone => None
  | ReplyList [] => Some []
  | ReplyList result => Some result
  | ReplyOther => Some []
  end.

(** [get_min_native_tokens] of [dict.py]; [None] when [float] raises. *)
Definition get_min_native_tokens (chain : string) : option Q :=
  let env_key := chain +:+ "_MIN_NATIVE_TOKENS" in
  match getenv env_key with
  | Some threshold => float_of_string threshold
  | None =>
      let global_default := default "100" (getenv "DEFAULT_MIN_NATIVE_TOKENS") in
      float_of_string global_default
  end.

(** The body of the [try] of [filter_converters_by_native_holdings];
    [None] when [get_min_native_tokens] raises. *)
Fixpoint holdings_loop (converters_data : list converter)
    (included_converters excluded_converters : list converter)
    : option (list converter * list converter) :=
  match converters_data with
  | [] => Some (included_converters, excluded_converters)
  | converter :: rest =>
      let source_chain := default "VRSC" (source_chain converter) in
      match get_min_native_tokens source_chain with
      | None => None
      | Some min_threshold =>
          let native_holdings := get_native_token_holdings converter source_chain in
          if py_ge native_holdings min_threshold then
            holdings_loop rest (included_converters ++ [converter]) excluded_converters
          else
            holdings_loop rest included_converters (excluded_converters ++ [converter])
      end
  end.

Definition filter_converters_by_native_holdings (converters_data : list converter)
    : list converter * list converter :=
  match holdings_loop converters_data [] [] with
  | Some result => result
  | None => (converters_data, [])
  end.

(** The threshold test of the loop, for one converter; [None] when the
    threshold cannot be read. *)
Definition meets_minimum (c : converter) : option bool :=
  let source_chain := default "VRSC" (source_chain c) in
  match get_min_native_tokens source_chain with
  | None => None
  | Some min_threshold =>
      Some (py_ge (get_native_token_holdings c source_chain) min_threshold)
  end.

(** [extract_converter_info].  The key scan picks the first key outside
    the four structural ones; when the daemon's dict has none, the key
    the discovery loop added is the one found. *)
Definition extract_converter_info (converter : converter) : converter_info :=
  let currency_state :=
    match lastnotarization converter with
    | Some ln => currencystate ln
    | None => None
    end in
  let reservecurrencies :=
    match currency_state with
    | Some cs => default [] (reservecurrencies cs)
    | None => []
    end in
  let reserve_info_of (rc : raw_reserve) : reserve_info :=
    {| rcurrency_id := default "" (currencyid rc);
       ticker := get_ticker_by_id (default "" (currencyid rc));
       weight := default 0 (raw_weight rc);
       reserves := default 0 (raw_reserves rc);
       price_in_reserve := default 0 (priceinreserve rc) |} in
  let reserve_infos := List.map reserve_info_of reservecurrencies in
  {| name := fullyqualifiedname converter;
     currency_id :=
       match first_other_key converter with
       | Some key => Some key
       | None =>
           match source_chain converter with
           | Some _ => Some "source_chain"
           | None => None
           end
       end;
     supply :=
       match currency_state with
       | Some cs => state_supply cs
       | None => None
       end;
     info_reserve_currencies := reserve_infos;
     info_source_chain := default "VRSC" (source_chain converter);
     chain := default "VRSC" (source_chain converter);
     currencies :=
       List.filter (fun t => negb (String.eqb t ""))
         (List.map ticker reserve_infos);
     total_liquidity_usd := 0;
     raw_data := converter |}.

(** One entry of the per-chain breakdown [chain_results]. *)
Record chain_result := {
  count : nat;
  converters : list converter;
  total_found : nat;
  bridge_filtered : nat
}.

Definition no_converters_found : chain_result :=
  {| count := 0; converters := []; total_found := 0; bridge_filtered := 0 |}.

(** The dict [discover_active_converters] returns; [error] is the key
    that only the failure record carries. *)
Record discovery_result := {
  active_converters : list converter_info;
  excluded_converters : list converter_info;
  total_count : nat;
  active_count : nat;
  excluded_count : nat;
  block_height : Z;
  chains : gmap string chain_result;
  error : option string
}.

(** The [for chain in chains] loop: the merged list and the per-chain
    breakdown. *)
Fixpoint discover_loop (chains : list string)
    (all_raw_converters : list converter)
    (chain_results : gmap string chain_result)
    : list converter * gmap string chain_result :=
  match chains with
  | [] => (all_raw_converters, chain_results)
  | chain :: rest =>
      match get_all_converters (Some chain) chain with
      | Some (c :: l) =>
          let raw_converters := c :: l in
          let filtered_converters :=
            List.map (set_source_chain chain)
              (filter_bridge_converters_by_chain raw_converters chain) in
          discover_loop rest (all_raw_converters ++ filtered_converters)
            (<[chain := {| count := length filtered_converters;
                           converters := filtered_converters;
                           total_found := length raw_converters;
                           bridge_filtered :=
                             length raw_converters - length filtered_converters |}]>
               chain_results)
      | _ =>
          discover_loop rest all_raw_converters
            (<[chain := no_converters_found]> chain_results)
      end
  end.

(** [discover_active_converters]; writing the result to disk does not
    change what is returned. *)
Definition discover_active_converters (chains : option (list string))
    : discovery_result :=
  let chains := default ["VRSC"] chains in
  let block_height := get_session_block_height in
  let '(all_raw_converters, chain_results) := discover_loop chains [] ∅ in
  match all_raw_converters with
  | [] =>
      {| active_converters := [];
         excluded_converters := [];
         total_count := 0;
         active_count := 0;
         excluded_count := 0;
         block_height := block_height;
         chains := chain_results;
         error := Some "Failed to fetch converters from any chain" |}
  | _ =>
      let '(filtered_converters, excluded_converters) :=
        filter_converters_by_native_holdings all_raw_converters in
      let active_converter_info := List.map extract_converter_info filtered_converters in
      let excluded_converter_info := List.map extract_converter_info excluded_converters in
      {| active_converters := active_converter_info;
         excluded_converters := excluded_converter_info;
         total_count := length all_raw_converters;
         active_count := length active_converter_info;
         excluded_count := length excluded_converter_info;
         block_height := block_height;
         chains := chain_results;
         error := None |}
  end.

(** What the scan of one chain contributes to the merged list: the
    converters kept by the bridge filter, tagged with the chain. *)
Definition chain_yield (chain : string) : list converter :=
  match get_all_converters (Some chain) chain with
  | Some (c :: l) =>
      List.map (set_source_chain chain)
        (filter_bridge_converters_by_chain (c :: l) chain)
  | _ => []
  end.

(** What the scan of one chain reports, [[]] when it fails. *)
Definition chain_report (chain : string) : list converter :=
  default [] (get_all_converters (Some chain) chain).

(** The record the loop stores for a chain. *)
Definition chain_record (X : string) : chain_result :=
  match get_all_converters (Some X) X with
  | Some (c :: l) =>
      {| count := length (chain_yield X);
         converters := chain_yield X;
         total_found := length (c :: l);
         bridge_filtered := length (c :: l) - length (chain_yield X) |}
  | _ => no_converters_found
  end.

(** The merged multi-chain list, before the holdings filter. *)
Definition merged_converters (chains : list string) : list converter :=
  fst (discover_loop chains [] ∅).

End World.

End Discovery.

(** ** Liquidity calculator ([liquidity_calculator.py]) *)

Module Liquidity.

(** The parameter dict of an [estimateconversion] call. *)
Record conversion_params := {
  currency : string;
  convertto : string;
  amount : Q;
  via : option string
}.

(** The value under [estimatedcurrencyout]: something [float] accepts, or
    something it raises on. *)
Inductive out_value :=
  | OutNumber (q : Q)
  | OutMalformed.

(** What [make_rpc_call(chain, 'estimateconversion', [params])] can hand
    back: an exception, a falsy value ([None], an empty dict), or a dict in
    which [estimatedcurrencyout] is present or not. *)
Inductive estimate_reply :=
  | EstimateRaises
  | EstimateNone
  | EstimateDict (estimatedcurrencyout : option out_value).

(** The rate a reply carries; [None] when the hop fails (the call raises,
    nothing usable comes back, or [float] raises on the value). *)
Definition hop_rate (reply : estimate_reply) : option Q :=
  match reply with
  | EstimateDict (Some (OutNumber rate)) => Some rate
  | _ => None
  end.

(** A hop that fails or returns a value [<= 0]. *)
Definition hop_fails (reply : estimate_reply) : Prop :=
  match hop_rate reply with
  | Some rate => rate <= 0
  | None => True
  end.

(** [for conv in converters_data: if conv.get('name') == converter_name] *)
Definition find_converter (converter_name : string)
    (converters_data : list converter_info) : option converter_info :=
  List.find (fun conv => bool_decide (name conv = Some converter_name)) converters_data.

(** The weight loop of [get_pair_liquidity]. *)
Fixpoint weights_loop (reserve_currencies : list reserve_info)
    (base_currency target_currency : string)
    (base_weight target_weight total_weight : Q) : Q * Q * Q :=
  match reserve_currencies with
  | [] => (base_weight, target_weight, total_weight)
  | rc :: rest =>
      let weight := weight rc in
      let total_weight := total_weight + weight in
      let currency_ticker := ticker rc in
      let base_weight :=
        if String.eqb currency_ticker base_currency then weight else base_weight in
      let target_weight :=
        if String.eqb currency_ticker target_currency then weight else target_weight in
      weights_loop rest base_currency target_currency
        base_weight target_weight total_weight
  end.

Section World.

Variable make_rpc_call : string -> conversion_params -> estimate_reply.

(** The call of [get_vrsc_usd_price_cached]. *)
Definition vrsc_usd_reply : estimate_reply :=
  let conversion_params :=
    {| currency := "VRSC"; convertto := "DAI.vETH"; amount := 1;
       via := Some "Bridge.vETH" |} in
  make_rpc_call "VRSC" conversion_params.

(** [get_vrsc_usd_price_cached]: the rate, [0.0] on every other path. *)
Definition get_vrsc_usd_price_cached : Q :=
  match vrsc_usd_reply with
  | EstimateDict (Some (OutNumber vrsc_dai_rate)) => vrsc_dai_rate
  | EstimateDict (Some OutMalformed) => 0
  | EstimateDict None => 0
  | EstimateNone => 0
  | EstimateRaises => 0
  end.

(** The call of [get_chain_to_vrsc_rate]. *)
Definition chain_to_vrsc_reply (chain : string) : estimate_reply :=
  let bridge_name :=
    if String.eqb chain "CHIPS" then "Bridge.CHIPS"
    else if String.eqb chain "VARRR" then "Bridge.vARRR"
    else if String.eqb chain "VDEX" then "Bridge.vDEX"
    else "Bridge." +:+ chain in
  let conversion_params :=
    {| currency := chain; convertto := "VRSC"; amount := 1;
       via := Some bridge_name |} in
  make_rpc_call chain conversion_params.

Definition get_chain_to_vrsc_rate (chain : string) : Q :=
  match chain_to_vrsc_reply chain with
  | EstimateDict (Some (OutNumber rate)) => rate
  | EstimateDict (Some OutMalformed) => 0
  | EstimateDict None => 0
  | EstimateNone => 0
  | EstimateRaises => 0
  end.

Definition get_chain_usd_price (chain : string) : Q :=
  let chain_to_vrsc_rate := get_chain_to_vrsc_rate chain in
  if py_le chain_to_vrsc_rate 0 then 0
  else
    let vrsc_usd_price := get_vrsc_usd_price_cached in
    if py_le vrsc_usd_price 0 then 0
    else
      let chain_usd_price := chain_to_vrsc_rate * vrsc_usd_price in
      chain_usd_price.

(** Step 1 of [get_converter_liquidity]: the call that asks for the
    converter to native currency ratio, by source chain. *)
Definition native_ratio_reply (converter_name converter_id source_chain : string)
    : estimate_reply :=
  if (String.eqb source_chain "VARRR" || String.eqb source_chain "VDEX")
     && startswith converter_name "Bridge." then
    let native_currency := source_chain in
    make_rpc_call source_chain
      {| currency := converter_id; convertto := native_currency; amount := 1;
         via := None |}
  else if String.eqb source_chain "VRSC" then
    make_rpc_call "VRSC"
      {| currency := converter_id; convertto := "VRSC"; amount := 1; via := None |}
  else
    let native_currency := source_chain in
    make_rpc_call source_chain
      {| currency := converter_id; convertto := native_currency; amount := 1;
         via := None |}.

(** [native_ratio] after step 1: it starts at [0] and is only assigned
    when the reply carries a rate. *)
Definition native_ratio_of (converter_name converter_id source_chain : string) : Q :=
  default 0 (hop_rate (native_ratio_reply converter_name converter_id source_chain)).

(** Step 2 of [get_converter_liquidity]. *)
Definition native_usd_price_of (source_chain : string) : Q :=
  if String.eqb source_chain "VRSC" then get_vrsc_usd_price_cached
  else get_chain_usd_price source_chain.

(** [get_converter_liquidity].  A [supply] of [None] makes [float] raise,
    and the handler returns [0.0]. *)
Definition get_converter_liquidity (converter_name : string)
    (converters_data : list converter_info) (min_liquidity_threshold : Q) : Q :=
  match find_converter converter_name converters_data with
  | None => 0
  | Some converter_info =>
      let converter_id := currency_id converter_info in
      match supply converter_info with
      | None => 0
      | Some supply =>
          if falsy_str converter_id || py_le supply 0 then 0
          else
            let converter_id := default "" converter_id in
            let source_chain := info_source_chain converter_info in
            let native_ratio := native_ratio_of converter_name converter_id source_chain in
            if py_le native_ratio 0 then 0
            else
              let native_usd_price := native_usd_price_of source_chain in
              if py_le native_usd_price 0 then 0
              else
                let total_liquidity := supply * native_ratio * native_usd_price in
                if py_lt supply min_liquidity_threshold then 0
                else total_liquidity
      end
  end.

(** [get_pair_liquidity]; the converter liquidity is computed with the
    default threshold. *)
Definition get_pair_liquidity (converter_name base_currency target_currency : string)
    (converters_data : list converter_info) : Q :=
  let total_liquidity := get_converter_liquidity converter_name converters_data 1000 in
  if py_le total_liquidity 0 then 0
  else
    match find_converter converter_name converters_data with
    | None => 0
    | Some converter_info =>
        let '(base_weight, target_weight, total_weight) :=
          weights_loop (info_reserve_currencies converter_info)
            base_currency target_currency 0 0 0 in
        let base_is_converter := String.eqb base_currency converter_name in
        let target_is_converter := String.eqb target_currency converter_name in
        let is_special_case := base_is_converter || target_is_converter in
        if is_special_case then
          let non_converter_weight :=
            if base_is_converter then target_weight else base_weight in
          if py_gt non_converter_weight 0 && py_gt total_weight 0 then
            let weight_fraction := non_converter_weight / total_weight in
            let pair_liquidity := (weight_fraction * total_liquidity) * 2 in
            pair_liquidity
          else 0
        else
          if py_gt base_weight 0 && py_gt target_weight 0 && py_gt total_weight 0 then
            let combined_weight_fraction := (base_weight + target_weight) / total_weight in
            let pair_liquidity := combined_weight_fraction * total_liquidity in
            pair_liquidity
          else 0
    end.

(** The hops behind the native to USD price fail: the direct quote for
    VRSC, either link of the chain through VRSC for the other chains. *)
Definition native_usd_hops_fail (source_chain : string) : Prop :=
  if String.eqb source_chain "VRSC" then hop_fails vrsc_usd_reply
  else hop_fails (chain_to_vrsc_reply source_chain) \/ hop_fails vrsc_usd_reply.

End World.

(** The three weights [get_pair_liquidity] reads off a converter. *)
Definition base_weight_of (i : converter_info) (base target : string) : Q :=
  (weights_loop (info_reserve_currencies i) base target 0 0 0).1.1.
Definition target_weight_of (i : converter_info) (base target : string) : Q :=
  (weights_loop (info_reserve_currencies i) base target 0 0 0).1.2.
Definition total_weight_of (i : converter_info) : Q :=
  (weights_loop (info_reserve_currencies i) "" "" 0 0 0).2.

(** The weight of the side of a basket pair that is not the basket. *)
Definition non_converter_weight_of (i : converter_info)
    (converter_name base target : string) : Q :=
  if String.eqb base converter_name then target_weight_of i base target
  else base_weight_of i base target.

End Liquidity.

(** ** Pair extraction ([data_integration.py]) *)

Module DataIntegration.

(** One element of [conversiondata.volumepairs] of a [getcurrencystate]
    reply. *)
Record volume_pair := {
  vp_currency : option string;
  vp_convertto : option string;
  vp_volume : option Q;
  vp_open : option Q;
  vp_high : option Q;
  vp_low : option Q;
  vp_close : option Q
}.

(** [conversiondata] of an item of a [getcurrencystate] reply. *)
Record conversion_data := {
  volumepairs : option (list volume_pair)
}.

(** An item of the list a [getcurrencystate] call returns. *)
Record state_item := {
  conversiondata : option conversion_data;
  totalvolume : option Q
}.

(** The reply to [getinfo]. *)
Record getinfo_result := {
  blocks : option Z
}.

(** What [make_rpc_call] can do: raise, hand back a falsy value ([None],
    an empty container, or a value of another shape than the caller goes
    on with), or hand back the value. *)
Inductive rpc_outcome (A : Type) :=
  | RpcRaises
  | RpcFalsy
  | RpcValue (a : A).
Arguments RpcRaises {A}.
Arguments RpcFalsy {A}.
Arguments RpcValue {A} a.

(** The value a loop of the form [for item in l: if k in item: x = item[k]]
    leaves in [x]: that of the last item that has the key. *)
Definition last_some {A B : Type} (f : A -> option B) (l : list A) : option B :=
  fold_left (fun x item => match f item with Some b => Some b | None => x end) l None.

(** The dict [find_pair_ohlc] returns. *)
Record ohlc := {
  ohlc_open : Q;
  ohlc_high : Q;
  ohlc_low : Q;
  ohlc_close : Q
}.

(** An entry of the list [get_converter_currencies] builds. *)
Record currency_entry := {
  symbol : string;
  entry_currency_id : string
}.

(** The dict [pair_data] of [extract_all_pairs_data]. *)
Record pair_data := {
  pair_converter : string;
  base_currency : string;
  target_currency : string;
  base_currency_id : string;
  target_currency_id : string;
  pair_symbol : string;
  base_volume : Q;
  target_volume : Q;
  base_volume_24h : Q;
  target_volume_24h : Q;
  last_price : Q;
  open : Q;
  high : Q;
  low : Q;
  last : Q;
  raw_base_volume : Q;
  raw_target_volume : Q;
  pair_liquidity_usd : Q;
  has_volume : bool
}.

(** The keys of the returned dict that carry data; [error] is only set on
    the two failure paths. *)
Record extraction_result := {
  error : option string;
  total_converters : nat;
  total_pairs : nat;
  pairs : list pair_data;
  session_block_height : option Z
}.

(** [s.endswith(suffix)] *)
Definition endswith (s suffix : string) : bool :=
  (String.length suffix <=? String.length s)%nat
  && String.eqb
       (String.substring (String.length s - String.length suffix)
          (String.length suffix) s)
       suffix.

Definition bridge_mappings : gmap string string :=
  <["Bridge.vARRR" := "VARRR"]>
  (<["Bridge.vDEX" := "VDEX"]>
  (<["Bridge.vCHIPS" := "CHIPS"]>
  (<["Bridge.CHIPS" := "CHIPS"]> ∅))).

(** [native_mappings], in the order the dict is written. *)
Definition native_mappings : list (string * string) :=
  [(".CHIPS", "CHIPS"); (".VARRR", "VARRR"); (".VDEX", "VDEX")].

Definition get_chain_for_converter (converter_name : string) : string :=
  match bridge_mappings !! converter_name with
  | Some chain => chain
  | None =>
      match List.find (fun sc => endswith converter_name (fst sc)) native_mappings with
      | Some sc => snd sc
      | None => "VRSC"
      end
  end.

Definition pair_matches (from_currency to_currency : string) (pair : volume_pair) : bool :=
  bool_decide (vp_currency pair = Some from_currency)
  && bool_decide (vp_convertto pair = Some to_currency).

(** [find_pair_volume]; an empty list is falsy. *)
Definition find_pair_volume (volume_pairs : list volume_pair)
    (from_currency to_currency : string) : Q :=
  match volume_pairs with
  | [] => 0
  | _ =>
      match List.find (pair_matches from_currency to_currency) volume_pairs with
      | Some found => default 0 (vp_volume found)
      | None => 0
      end
  end.

Definition find_pair_ohlc (volume_pairs : list volume_pair)
    (from_currency to_currency : string) : ohlc :=
  let zeros := {| ohlc_open := 0; ohlc_high := 0; ohlc_low := 0; ohlc_close := 0 |} in
  match volume_pairs with
  | [] => zeros
  | _ =>
      match List.find (pair_matches from_currency to_currency) volume_pairs with
      | Some found =>
          {| ohlc_open := default 0 (vp_open found);
             ohlc_high := default 0 (vp_high found);
             ohlc_low := default 0 (vp_low found);
             ohlc_close := default 0 (vp_close found) |}
      | None => zeros
      end
  end.

(** [get_converter_currencies]: the basket token first, when the converter
    has a name, then one entry per reserve. *)
Definition get_converter_currencies (converter : converter_info) : list currency_entry :=
  let converter_name := name converter in
  let converter_id := currency_id converter in
  (if falsy_str converter_name then []
   else [{| symbol := default "" converter_name;
            entry_currency_id :=
              if falsy_str converter_id then "" else default "" converter_id |}])
  ++ List.map (fun reserve =>
                 {| symbol := ticker reserve;
                    entry_currency_id := rcurrency_id reserve |})
       (info_reserve_currencies converter).

Definition get_currency_id_by_symbol (currencies : list currency_entry)
    (symbol' : string) : string :=
  match List.find (fun curr => String.eqb (symbol curr) symbol') currencies with
  | Some curr => entry_currency_id curr
  | None => ""
  end.

Section World.

(** The session's pinned height, the configured blocks per day of a chain,
    the daemon's [getinfo] and [getcurrencystate] (with the block range
    string as its three numbers), the price inversion of
    [price_inversion.py], and the daemon behind the liquidity calculator. *)
Variable current_block : Z.
Variable blocks_per_day_of : string -> Z.
Variable rpc_getinfo : string -> rpc_outcome getinfo_result.
Variable rpc_getcurrencystate :
  string -> string -> Z * Z * Z -> string -> rpc_outcome (list state_item).
Variable apply_universal_price_inversion : pair_data -> pair_data.
Variable make_rpc_call : string -> Liquidity.conversion_params -> Liquidity.estimate_reply.

(** [get_currency_volume_info].  The outer [None] is an exception of one of
    the two calls, which are outside the [try]; the inner [None] is the
    [(None, None)] the function returns when it has nothing. *)
Definition get_currency_volume_info (currency : string)
    (from_block end_block interval : Z) (volume_currency target_chain : string)
    : option (option (list volume_pair * option Q)) :=
  let target_chain :=
    if String.eqb target_chain "" then get_chain_for_converter currency
    else target_chain in
  let chain_blocks_per_day := blocks_per_day_of target_chain in
  match rpc_getinfo target_chain with
  | RpcRaises => None
  | RpcFalsy => Some None
  | RpcValue current_height_result =>
      match blocks current_height_result with
      | None => Some None
      | Some current_height =>
          let calculated_start_block := (current_height - chain_blocks_per_day)%Z in
          let calculated_end_block := current_height in
          let block_range_param :=
            (calculated_start_block, calculated_end_block, chain_blocks_per_day) in
          match rpc_getcurrencystate target_chain currency block_range_param
                  volume_currency with
          | RpcRaises => None
          | RpcFalsy => Some None
          | RpcValue [] => Some None
          | RpcValue result =>
              let conversion_data := last_some conversiondata result in
              let total_volume := last_some totalvolume result in
              match conversion_data with
              | Some cd =>
                  match volumepairs cd with
                  | Some volume_pairs => Some (Some (volume_pairs, total_volume))
                  | None => Some None
                  end
              | None => Some None
              end
          end
      end
  end.

(** The loop that fills [all_volume_data]: one query per currency of the
    converter, with that currency as the volume lens. *)
Fixpoint volume_loop (converter_name target_chain : string)
    (start_block end_block blocks_per_day : Z)
    (currencies : list currency_entry)
    (all_volume_data : gmap string (list volume_pair * option Q))
    : option (gmap string (list volume_pair * option Q)) :=
  match currencies with
  | [] => Some all_volume_data
  | currency_info :: rest =>
      let currency_symbol := symbol currency_info in
      match get_currency_volume_info converter_name start_block end_block
              blocks_per_day currency_symbol target_chain with
      | None => None
      | Some (Some data) =>
          volume_loop converter_name target_chain start_block end_block
            blocks_per_day rest (<[currency_symbol := data]> all_volume_data)
      | Some None =>
          volume_loop converter_name target_chain start_block end_block
            blocks_per_day rest all_volume_data
      end
  end.

Definition all_volume_data_of (converter_name target_chain : string)
    (currencies : list currency_entry)
    : option (gmap string (list volume_pair * option Q)) :=
  let blocks_per_day := blocks_per_day_of target_chain in
  let start_block := (current_block - blocks_per_day)%Z in
  let end_block := current_block in
  volume_loop converter_name target_chain start_block end_block blocks_per_day
    currencies ∅.

(** The volume of [base -> target] seen through a lens currency; [0] when
    the query of that lens gave nothing. *)
Definition lens_volume (all_volume_data : gmap string (list volume_pair * option Q))
    (lens base_currency target_currency : string) : Q :=
  match all_volume_data !! lens with
  | Some data => find_pair_volume (fst data) base_currency target_currency
  | None => 0
  end.

Definition lens_ohlc (all_volume_data : gmap string (list volume_pair * option Q))
    (lens base_currency target_currency : string) : ohlc :=
  match all_volume_data !! lens with
  | Some data => find_pair_ohlc (fst data) base_currency target_currency
  | None => {| ohlc_open := 0; ohlc_high := 0; ohlc_low := 0; ohlc_close := 0 |}
  end.

(** The dict built for one [(base, target)] combination. *)
Definition pair_record (converters : list converter_info) (converter_name : string)
    (currencies : list currency_entry)
    (all_volume_data : gmap string (list volume_pair * option Q))
    (base_currency target_currency : string) : pair_data :=
  let raw_base_volume :=
    lens_volume all_volume_data base_currency base_currency target_currency in
  let raw_target_volume :=
    lens_volume all_volume_data target_currency base_currency target_currency in
  let ohlc_data :=
    lens_ohlc all_volume_data target_currency base_currency target_currency in
  let calculated_base_volume := raw_base_volume in
  let calculated_target_volume := raw_target_volume in
  {| pair_converter := converter_name;
     base_currency := base_currency;
     target_currency := target_currency;
     base_currency_id := get_currency_id_by_symbol currencies base_currency;
     target_currency_id := get_currency_id_by_symbol currencies target_currency;
     pair_symbol := base_currency +:+ "-" +:+ target_currency;
     base_volume := calculated_base_volume;
     target_volume := calculated_target_volume;
     base_volume_24h := calculated_base_volume;
     target_volume_24h := calculated_target_volume;
     last_price := ohlc_close ohlc_data;
     open := ohlc_open ohlc_data;
     high := ohlc_high ohlc_data;
     low := ohlc_low ohlc_data;
     last := ohlc_close ohlc_data;
     raw_base_volume := raw_base_volume;
     raw_target_volume := raw_target_volume;
     pair_liquidity_usd :=
       Liquidity.get_pair_liquidity make_rpc_call converter_name
         base_currency target_currency converters;
     has_volume := true |}.

(** The body of the loop over the converters, for one converter: the
    records it appends to [all_pairs].  A converter whose [name] is [None]
    makes [get_chain_for_converter] raise, and so does a volume query
    whose call to the daemon raises. *)
Definition pairs_of_converter (converters : list converter_info)
    (converter : converter_info) : option (list pair_data) :=
  match name converter with
  | None => None
  | Some converter_name =>
      let currencies := get_converter_currencies converter in
      let currency_symbols := List.map symbol currencies in
      let target_chain := get_chain_for_converter converter_name in
      if (length currencies <? 2)%nat then Some []
      else
        match all_volume_data_of converter_name target_chain currencies with
        | None => None
        | Some all_volume_data =>
            Some
              (List.flat_map (fun base_currency =>
                 List.flat_map (fun target_currency =>
                   if String.eqb base_currency target_currency then []
                   else
                     let pair_data :=
                       pair_record converters converter_name currencies all_volume_data
                         base_currency target_currency in
                     if py_gt (base_volume pair_data) 0
                        || py_gt (target_volume pair_data) 0
                     then [apply_universal_price_inversion pair_data]
                     else [])
                   currency_symbols)
                 currency_symbols)
        end
  end.

(** The loop over the converters; [None] when a pass raises. *)
Fixpoint extract_loop (converters todo : list converter_info)
    (all_pairs : list pair_data) : option (list pair_data) :=
  match todo with
  | [] => Some all_pairs
  | converter :: rest =>
      match pairs_of_converter converters converter with
      | None => None
      | Some new_pairs => extract_loop converters rest (all_pairs ++ new_pairs)
      end
  end.

(** [extract_all_pairs_data], given what [load_converter_data] returns.
    On the handler's path [error] holds the text of the exception,
    written ["str(e)"] here. *)
Definition extract_all_pairs_data (converters : list converter_info)
    : extraction_result :=
  match converters with
  | [] =>
      {| error := Some "No converter data available";
         total_converters := 0; total_pairs := 0; pairs := [];
         session_block_height := None |}
  | _ =>
      match extract_loop converters converters [] with
      | Some all_pairs =>
          {| error := None;
             total_converters := length converters;
             total_pairs := length all_pairs;
             pairs := all_pairs;
             session_block_height := Some current_block |}
      | None =>
          {| error := Some "str(e)";
             total_converters := 0; total_pairs := 0; pairs := [];
             session_block_height := None |}
      end
  end.

End World.

End DataIntegration.

(** ** I-address aggregation ([ticker_formatting.py]) *)

Module TickerFormatting.

(** Round to the nearest integer, ties to the even one. *)
Definition round_half_even (y : Q) : Z :=
  let f := Qfloor y in
  match Qcompare (y - inject_Z f) (1 # 2) with
  | Lt => f
  | Gt => (f + 1)%Z
  | Eq => if Z.even f then f else (f + 1)%Z
  end.

(** A string written by [f"{x:.8f}"], as the number of units of [1e-8] it
    spells; [float] of such a string is [float_of_format8]. *)
Definition format8 (x : Q) : Z := round_half_even (x * 100000000).
Definition float_of_format8 (s : Z) : Q := inject_Z s / 100000000.

(** An entry of [pair_aggregation]; the three figures are strings with
    eight decimals. *)
Record cmc_ticker := {
  base_id : string;
  base_name : string;
  base_symbol : string;
  quote_id : string;
  quote_name : string;
  quote_symbol : string;
  last_price : Z;
  base_volume : Z;
  quote_volume : Z
}.

(** [f"{base_currency_id}_{target_currency_id}"] *)
Definition pair_key_of (pair_data : DataIntegration.pair_data) : string :=
  DataIntegration.base_currency_id pair_data +:+ "_"
  +:+ DataIntegration.target_currency_id pair_data.

(** [pair_aggregation[pair_key].update({...})] *)
Definition update_ticker (existing : cmc_ticker)
    (last_price' base_volume' quote_volume' : Z) : cmc_ticker :=
  {| base_id := base_id existing;
     base_name := base_name existing;
     base_symbol := base_symbol existing;
     quote_id := quote_id existing;
     quote_name := quote_name existing;
     quote_symbol := quote_symbol existing;
     last_price := last_price';
     base_volume := base_volume';
     quote_volume := quote_volume' |}.

(** One pass of the loop of [aggregate_pairs_for_iaddress_cmc]. *)
Definition aggregate_step (pair_aggregation : gmap string cmc_ticker)
    (pair_data : DataIntegration.pair_data) : gmap string cmc_ticker :=
  let base_currency_id := DataIntegration.base_currency_id pair_data in
  let target_currency_id := DataIntegration.target_currency_id pair_data in
  let base_currency := DataIntegration.base_currency pair_data in
  let target_currency := DataIntegration.target_currency pair_data in
  let pair_key := pair_key_of pair_data in
  let base_volume := DataIntegration.base_volume pair_data in
  let target_volume := DataIntegration.target_volume pair_data in
  let last_price := DataIntegration.last pair_data in
  if py_le base_volume 0 then pair_aggregation
  else
    match pair_aggregation !! pair_key with
    | Some existing =>
        let existing_base_vol := float_of_format8 (TickerFormatting.base_volume existing) in
        let existing_quote_vol := float_of_format8 (quote_volume existing) in
        let new_base_vol := base_volume in
        let new_quote_vol := target_volume in
        let total_base_vol := existing_base_vol + new_base_vol in
        let total_quote_vol := existing_quote_vol + new_quote_vol in
        let existing_price := float_of_format8 (TickerFormatting.last_price existing) in
        let new_price := last_price in
        let weighted_price :=
          if py_gt (existing_quote_vol + new_quote_vol) 0 then
            (existing_price * existing_quote_vol + new_price * new_quote_vol)
            / (existing_quote_vol + new_quote_vol)
          else new_price in
        <[pair_key := update_ticker existing (format8 weighted_price)
                        (format8 total_base_vol) (format8 total_quote_vol)]>
          pair_aggregation
    | None =>
        let ticker :=
          {| base_id := base_currency_id;
             base_name := base_currency;
             base_symbol := base_currency;
             quote_id := target_currency_id;
             quote_name := target_currency;
             quote_symbol := target_currency;
             last_price := format8 last_price;
             base_volume := format8 base_volume;
             quote_volume := format8 target_volume |} in
        <[pair_key := ticker]> pair_aggregation
    end.

Definition aggregate_pairs_for_iaddress_cmc (pairs_data : list DataIntegration.pair_data)
    : gmap string cmc_ticker :=
  foldl aggregate_step ∅ pairs_data.

(** A float that a string with eight decimals spells exactly. *)
Definition eight_decimals (x : Q) : Prop := float_of_format8 (format8 x) == x.

End TickerFormatting.

(** ** Sample daemons and environments *)

Module Samples.
Import Discovery Liquidity TickerFormatting.

(** [float] on the strings the sample environments hold: an unsigned run
    of decimal digits parses, anything else raises [ValueError]. *)
Fixpoint digits_value (s : string) (acc : N) : option N :=
  match s with
  | EmptyString => Some acc
  | String a s' =>
      let d := N_of_ascii a in
      if ((48 <=? d) && (d <=? 57))%N then digits_value s' (10 * acc + (d - 48))%N
      else None
  end.

Definition float_of_digits (s : string) : option Q :=
  match s with
  | EmptyString => None
  | _ => option_map (fun n => Z.of_N n # 1) (digits_value s 0%N)
  end.

Definition vrsc_id : string := "i5w5MuNik5NtLcYmNzcvaoixooEebB6MGV".
Definition chips_id : string := "iJ3WZocnjG9ufv7GKUA4LijQno5gTMb7tP".

Definition raw (id : string) (w r : Q) : raw_reserve :=
  {| currencyid := Some id; raw_weight := Some w; raw_reserves := Some r;
     priceinreserve := Some 1 |}.

(** A converter as the daemon reports it. *)
Definition daemon_converter (key fqn : string) (s : Q) (rs : list raw_reserve)
    : converter :=
  {| first_other_key := Some key;
     fullyqualifiedname := Some fqn;
     currencyname := None;
     source_chain := None;
     reserve_currencies := None;
     lastnotarization :=
       Some {| currencystate :=
                 Some {| state_supply := Some s; reservecurrencies := Some rs |} |};
     flat_reserves := None |}.

Definition bridge_chips : converter :=
  daemon_converter "i3nokiCTVevZMLpR3VmZ7YDfCqA5juUqqH" "Bridge.CHIPS" 60000
    [raw chips_id (1#2) 30000; raw vrsc_id (1#2) 25000].

Definition bridge_veth : converter :=
  daemon_converter "i3f7tSctFkiPpiedY8QR5Tep9p4qDVebDx" "Bridge.vETH" 69665.9
    [raw vrsc_id (1#4) 1500000; raw "iGBs4DWztRNvNEJBt4mqHszLxfKTNHTkhM" (1#4) 3200000;
     raw "i9nwxtKuVYX4MSbeULLiK2ttVi6rUEhh4X" (1#4) 900;
     raw "iCkKJuJScy4Z6NSDK7Mt42ZAB2NEnAE1o4" (1#4) 5000].

Definition dust_pool : converter :=
  daemon_converter "iHax5qYQGbcMGqJKKrPorpzUBX2oFFXGnY" "Pure" 10
    [raw vrsc_id (1#2) 5; raw "iS8TfRPfVpKo5FVfSUzfHBQxo9KuzpnqLU" (1#2) 0.001].

(** A bridge name the home-chain table does not list. *)
Definition bridge_vchips : converter :=
  daemon_converter "iUnmappedBridgeConverterAddress0001" "Bridge.vCHIPS" 5000
    [raw chips_id (1#2) 40000; raw vrsc_id (1#2) 30000].

(** VRSC and CHIPS both report [Bridge.CHIPS]; the other daemons are
    unreachable. *)
Definition two_chain_daemon (chain system_id : string) : converters_reply :=
  if String.eqb chain "VRSC" then ReplyList [bridge_veth; bridge_chips; dust_pool]
  else if String.eqb chain "CHIPS" then ReplyList [bridge_chips; bridge_vchips]
  else ReplyNone.

Definition unreachable_daemon (chain system_id : string) : converters_reply :=
  ReplyNone.

(** The documented thresholds for VRSC and CHIPS. *)
Definition env_documented (key : string) : option string :=
  if String.eqb key "VRSC_MIN_NATIVE_TOKENS" then Some "1000"
  else if String.eqb key "CHIPS_MIN_NATIVE_TOKENS" then Some "20000"
  else None.

(** The same with a CHIPS entry that is not a number. *)
Definition env_typo (key : string) : option string :=
  if String.eqb key "VRSC_MIN_NATIVE_TOKENS" then Some "1000"
  else if String.eqb key "CHIPS_MIN_NATIVE_TOKENS" then Some "20k"
  else None.

Definition ticker_is_id (currency_id : string) : string := currency_id.

Definition tagged_dust : converter := set_source_chain "VRSC" dust_pool.
Definition tagged_bridge_chips : converter := set_source_chain "CHIPS" bridge_chips.

(** The currency mapping for the reserves of [Bridge.vETH]. *)
Definition sample_ticker (currency_id : string) : string :=
  if String.eqb currency_id vrsc_id then "VRSC"
  else if String.eqb currency_id "iGBs4DWztRNvNEJBt4mqHszLxfKTNHTkhM" then "DAI.vETH"
  else if String.eqb currency_id "i9nwxtKuVYX4MSbeULLiK2ttVi6rUEhh4X" then "vETH"
  else if String.eqb currency_id "iCkKJuJScy4Z6NSDK7Mt42ZAB2NEnAE1o4" then "MKR.vETH"
  else currency_id.

(** [Bridge.vETH] as discovery hands it on: supply 69665.9, four reserves
    of weight 0.25, source chain VRSC. *)
Definition veth_info : converter_info :=
  extract_converter_info sample_ticker (set_source_chain "VRSC" bridge_veth).

(** A daemon that quotes 156.72 VRSC for one basket token and 2.15 DAI for
    one VRSC. *)
Definition veth_daemon (chain : string) (p : conversion_params) : estimate_reply :=
  if String.eqb chain "VRSC" then
    if String.eqb (currency p) "i3f7tSctFkiPpiedY8QR5Tep9p4qDVebDx"
       && String.eqb (convertto p) "VRSC"
    then EstimateDict (Some (OutNumber 156.72))
    else if String.eqb (currency p) "VRSC" && String.eqb (convertto p) "DAI.vETH"
    then EstimateDict (Some (OutNumber 2.15))
    else EstimateNone
  else EstimateRaises.

(** The same daemon with no quote for VRSC in DAI. *)
Definition no_usd_daemon (chain : string) (p : conversion_params) : estimate_reply :=
  if String.eqb (currency p) "VRSC" then EstimateDict None
  else veth_daemon chain p.

Definition veth_liquidity : Q :=
  get_converter_liquidity veth_daemon "Bridge.vETH" [veth_info] 1000.

Definition veth_pair_liquidity : Q :=
  get_pair_liquidity veth_daemon "Bridge.vETH" "VRSC" "DAI.vETH" [veth_info].

(** The VRSC daemon is at height 3500123. *)
Definition vrsc_getinfo (chain : string) : DataIntegration.rpc_outcome DataIntegration.getinfo_result :=
  if String.eqb chain "VRSC"
  then DataIntegration.RpcValue {| DataIntegration.blocks := Some 3500123%Z |}
  else DataIntegration.RpcFalsy.

(** Volume queries for [Bridge.vETH]: the VRSC lens and the DAI.vETH lens
    both saw [VRSC -> DAI.vETH] trades, no other lens answered. *)
Definition veth_getcurrencystate (chain currency : string) (block_range : Z * Z * Z)
    (volume_currency : string)
    : DataIntegration.rpc_outcome (list DataIntegration.state_item) :=
  let seen (v o h l c : Q) : DataIntegration.volume_pair :=
    {| DataIntegration.vp_currency := Some "VRSC";
       DataIntegration.vp_convertto := Some "DAI.vETH";
       DataIntegration.vp_volume := Some v;
       DataIntegration.vp_open := Some o;
       DataIntegration.vp_high := Some h;
       DataIntegration.vp_low := Some l;
       DataIntegration.vp_close := Some c |} in
  let reply (v : Q) : list DataIntegration.state_item :=
    [{| DataIntegration.conversiondata :=
          Some {| DataIntegration.volumepairs := Some [seen v 2.1 2.2 2.05 2.15] |};
        DataIntegration.totalvolume := None |};
     {| DataIntegration.conversiondata := None;
        DataIntegration.totalvolume := Some v |}] in
  if String.eqb currency "Bridge.vETH" then
    if String.eqb volume_currency "VRSC" then DataIntegration.RpcValue (reply 1200)
    else if String.eqb volume_currency "DAI.vETH" then DataIntegration.RpcValue (reply 2580)
    else DataIntegration.RpcFalsy
  else DataIntegration.RpcFalsy.

Definition blocks_per_day_1440 (chain : string) : Z := 1440.

Definition no_inversion (pair_data : DataIntegration.pair_data)
    : DataIntegration.pair_data := pair_data.

(** The extraction over [Bridge.vETH] on the sample daemons. *)
Definition veth_extraction : DataIntegration.extraction_result :=
  DataIntegration.extract_all_pairs_data 3500000 blocks_per_day_1440
    vrsc_getinfo veth_getcurrencystate no_inversion veth_daemon [veth_info].

(** What a converter reports for the pair [VRSC -> DAI.vETH]: base
    volume, target volume and last price. *)
Definition contribution (converter_name : string) (bv tv price : Q)
    : DataIntegration.pair_data :=
  {| DataIntegration.pair_converter := converter_name;
     DataIntegration.base_currency := "VRSC";
     DataIntegration.target_currency := "DAI.vETH";
     DataIntegration.base_currency_id := vrsc_id;
     DataIntegration.target_currency_id := "iGBs4DWztRNvNEJBt4mqHszLxfKTNHTkhM";
     DataIntegration.pair_symbol := "VRSC-DAI.vETH";
     DataIntegration.base_volume := bv;
     DataIntegration.target_volume := tv;
     DataIntegration.base_volume_24h := bv;
     DataIntegration.target_volume_24h := tv;
     DataIntegration.last_price := price;
     DataIntegration.open := price;
     DataIntegration.high := price;
     DataIntegration.low := price;
     DataIntegration.last := price;
     DataIntegration.raw_base_volume := bv;
     DataIntegration.raw_target_volume := tv;
     DataIntegration.pair_liquidity_usd := 0;
     DataIntegration.has_volume := true |}.

Definition vrsc_dai_key : string :=
  "i5w5MuNik5NtLcYmNzcvaoixooEebB6MGV_iGBs4DWztRNvNEJBt4mqHszLxfKTNHTkhM".

(** The three figures of an aggregated entry. *)
Definition figures (t : cmc_ticker) : Z * Z * Z :=
  (TickerFormatting.base_volume t, quote_volume t, TickerFormatting.last_price t).

(** *** Statements of the specification, as written *)

(** "Two contributors with equal quote volume aggregate to the arithmetic
    mean of their prices." *)
Definition equal_quote_volume_gives_mean : Prop :=
  forall pd1 pd2 : DataIntegration.pair_data,
    pair_key_of pd1 = pair_key_of pd2 ->
    0 < DataIntegration.base_volume pd1 ->
    0 < DataIntegration.base_volume pd2 ->
    DataIntegration.target_volume pd1 == DataIntegration.target_volume pd2 ->
    exists t,
      aggregate_pairs_for_iaddress_cmc [pd1; pd2] !! pair_key_of pd1 = Some t /\
      float_of_format8 (TickerFormatting.last_price t) ==
      (DataIntegration.last pd1 + DataIntegration.last pd2) / 2.


(** "[x] is approximately [y]", read generously: within one part in a
    thousand of [y]. *)
Definition approx (x y : Q) : Prop := Qabs (x - y) <= y / 1000.

(** "A converter below the minimum of its chain never appears in the
    active set", for an environment. *)
Definition below_minimum_never_included
    (getenv : string -> option string) (float_of_string : string -> option Q)
    : Prop :=
  forall (converters_data : list converter) (c : converter) (m : Q),
    c ∈ converters_data ->
    get_min_native_tokens getenv float_of_string
      (default "VRSC" (source_chain c)) = Some m ->
    get_native_token_holdings c (default "VRSC" (source_chain c)) < m ->
    let r := filter_converters_by_native_holdings getenv float_of_string
               converters_data in
    c ∈ r.2 /\ c ∉ r.1.

(** "A bridge name absent from the home-chain table is excluded from
    nowhere." *)
Definition unmapped_bridge_retained : Prop :=
  forall (l : list converter) (X : string) (c : converter) (n : string),
    c ∈ l ->
    fullyqualifiedname c = Some n ->
    startswith n "Bridge." = true ->
    bridge_converter_chains !! n = None ->
    c ∈ filter_bridge_converters_by_chain l X.

End Samples.

(** ** Currency mapping ([dict.py]) *)

Module Dict.

(** An entry of [currency_contract_mapping]: a dict with the keys
    [address], [eth_symbol] and [vrsc_symbol], each of which may be
    absent, and string values. *)
Record contract_info := {
  address : option string;
  eth_symbol : option string;
  vrsc_symbol : option string
}.

(** [bool(contract_info)]: a dict is falsy when it has no key. *)
Definition nonempty (contract_info : contract_info) : bool :=
  match address contract_info, eth_symbol contract_info, vrsc_symbol contract_info with
  | None, None, None => false
  | _, _, _ => true
  end.

(** [bool(s)] for a string that may be [None]. *)
Definition truthy (o : option string) : bool := negb (falsy_str o).

(** [x or d] for a string [x] that may be [None]. *)
Definition or_else (o : option string) (d : string) : string :=
  if truthy o then default "" o else d.

(** [currency_contract_mapping.get(currency_id)] on the mapping as the
    JSON object lists it. *)
Definition mapping_get (currency_contract_mapping : list (string * contract_info))
    (currency_id : string) : option contract_info :=
  snd <$> List.find (fun kv => String.eqb (fst kv) currency_id) currency_contract_mapping.

(** The currency identifiers that are converter baskets. *)
Definition excluded_currency_ids : list string :=
  ["i3f7tSctFkiPpiedY8QR5Tep9p4qDVebDx";
   "iG1jouaqSJayNb9LCqPzb3yFYD3kUpY2P2";
   "iHnYAmrS45Hb8GVgyzy7nVQtZ5vttJ9N3X";
   "iFrFn9b6ctse7XBzcWkRbpYMAHoKjbYKqG";
   "i4Xr5TAMrDTD99H69EemhjDxJ4ktNskUtc";
   "i9kVWKU2VwARALpbXn4RS9zvrhvNRaUibb";
   "iH37kRsdfoHtHK5TottP1Yfq8hBSHz9btw";
   "iHax5qYQGbcMGqJKKrPorpzUBX2oFFXGnY";
   "iAik7rePReFq2t7LZMZhHCJ52fT5pisJ5C";
   "iRt7tpLewArQnRddBVFARGKJStK6w5pDmC";
   "i3nokiCTVevZMLpR3VmZ7YDfCqA5juUqqH";
   "iNLBYPcNM3c5mzRdtfjd9Hk86WPijQfZhW";
   "iDetLA1snrDVhCCk42rdWfqmJcYCMcEFry";
   "iD5WRg7jdQM1uuoVHsBCAEKfJCKGs1U3TB";
   "i6j1rzjgrDhSmUYiTtp21J8Msiudv5hgt9"].

Definition is_converter_currency (currency_id : string) : bool :=
  bool_decide (currency_id ∈ excluded_currency_ids).

Section Mapping.

(** What [load_currency_mappings] returns. *)
Variable currency_contract_mapping : list (string * contract_info).

(** The entry [contract_info] when
    [contract_info and isinstance(contract_info, dict)] holds. *)
Definition usable_entry (currency_id : string) : option contract_info :=
  match mapping_get currency_contract_mapping currency_id with
  | Some contract_info => if nonempty contract_info then Some contract_info else None
  | None => None
  end.

(** [get_ticker_by_id]; both fallbacks return the identifier. *)
Definition get_ticker_by_id (currency_id : string) : option string :=
  match usable_entry currency_id with
  | Some contract_info => vrsc_symbol contract_info
  | None => Some currency_id
  end.

Definition get_mapped_eth_address (currency_id : string) : option string :=
  match usable_entry currency_id with
  | Some contract_info => address contract_info
  | None => None
  end.

(** [get_currency_id_by_name]: the first identifier, in the order of the
    mapping, whose [vrsc_symbol] is the name. *)
Definition get_currency_id_by_name (currency_name : string) : option string :=
  fst <$> List.find (fun kv => bool_decide (vrsc_symbol (snd kv) = Some currency_name))
            currency_contract_mapping.

Definition get_mapped_eth_symbol (currency_name : string) : option string :=
  match get_currency_id_by_name currency_name with
  | None => None
  | Some currency_id =>
      if String.eqb currency_id "" then None
      else
        match usable_entry currency_id with
        | Some contract_info => eth_symbol contract_info
        | None => None
        end
  end.

Definition get_mapped_vrsc_symbol (currency_id : string) : option string :=
  match usable_entry currency_id with
  | Some contract_info => vrsc_symbol contract_info
  | None => None
  end.

Definition get_symbol_for_currency (currency_id : string) : option string :=
  match usable_entry currency_id with
  | Some contract_info =>
      if truthy (address contract_info) then eth_symbol contract_info
      else vrsc_symbol contract_info
  | None => None
  end.

Definition is_currency_exported_to_ethereum (currency_id : string) : bool :=
  bool_decide (is_Some (mapping_get currency_contract_mapping currency_id)).

(** [get_erc20_symbol] of [ticker_formatting.py]: a missing [eth_symbol]
    raises [KeyError], and the handler returns the fallback. *)
Definition get_erc20_symbol (currency_id fallback_symbol : string) : string :=
  match mapping_get currency_contract_mapping currency_id with
  | Some contract_info =>
      match eth_symbol contract_info with
      | Some s => s
      | None => fallback_symbol
      end
  | None => fallback_symbol
  end.

End Mapping.

End Dict.

(** ** CoinGecko tickers ([ticker_formatting.py]) *)

Module CoinGecko.

(** The dict [format_coingecko_ticker] returns; figures are strings with
    eight decimals. *)
Record coingecko_ticker := {
  ticker_id : string;
  base_currency : string;
  target_currency : string;
  last_price : Z;
  base_volume : Z;
  target_volume : Z;
  bid : Z;
  ask : Z;
  high : Z;
  low : Z;
  open : Z;
  pool_id : option string;
  liquidity_in_usd : Z
}.

(** [should_exclude_pair_alltickers], and the test the generators write
    out. *)
Definition touches_converter_currency (pair_data : DataIntegration.pair_data) : bool :=
  Dict.is_converter_currency (DataIntegration.base_currency_id pair_data)
  || Dict.is_converter_currency (DataIntegration.target_currency_id pair_data).

Section World.

(** The currency mapping, what [load_converter_data] returns, and the
    daemon behind the liquidity calculator. *)
Variable currency_contract_mapping : list (string * Dict.contract_info).
Variable load_converter_data : list converter_info.
Variable make_rpc_call : string -> Liquidity.conversion_params -> Liquidity.estimate_reply.

(** [format_coingecko_ticker]; on a pair of the extractor nothing in it
    raises. *)
Definition format_coingecko_ticker (pair_data : DataIntegration.pair_data)
    (use_cache : bool) : coingecko_ticker :=
  let base_currency := DataIntegration.base_currency pair_data in
  let target_currency := DataIntegration.target_currency pair_data in
  let base_currency_id := DataIntegration.base_currency_id pair_data in
  let target_currency_id := DataIntegration.target_currency_id pair_data in
  let converter := DataIntegration.pair_converter pair_data in
  let base_symbol :=
    Dict.or_else (Dict.get_symbol_for_currency currency_contract_mapping base_currency_id)
      base_currency in
  let target_symbol :=
    Dict.or_else (Dict.get_symbol_for_currency currency_contract_mapping target_currency_id)
      target_currency in
  let converter_data := load_converter_data in
  let pool_id :=
    match Liquidity.find_converter converter converter_data with
    | Some conv => currency_id conv
    | None => Some converter
    end in
  let last_price := TickerFormatting.format8 (DataIntegration.last pair_data) in
  let pair_liquidity_usd :=
    if use_cache then DataIntegration.pair_liquidity_usd pair_data
    else Liquidity.get_pair_liquidity make_rpc_call converter base_currency
           target_currency converter_data in
  {| ticker_id := base_symbol +:+ "-" +:+ target_symbol;
     base_currency := base_symbol;
     target_currency := target_symbol;
     last_price := last_price;
     base_volume := TickerFormatting.format8 (DataIntegration.base_volume pair_data);
     target_volume := TickerFormatting.format8 (DataIntegration.target_volume pair_data);
     bid := last_price;
     ask := last_price;
     high := TickerFormatting.format8 (DataIntegration.high pair_data);
     low := TickerFormatting.format8 (DataIntegration.low pair_data);
     open := TickerFormatting.format8 (DataIntegration.open pair_data);
     pool_id := pool_id;
     liquidity_in_usd := TickerFormatting.format8 pair_liquidity_usd |}.

(** The loop of [generate_coingecko_tickers]. *)
Fixpoint coingecko_loop (use_cache : bool) (pairs_data : list DataIntegration.pair_data)
    (tickers : list coingecko_ticker) (excluded_count : nat)
    : list coingecko_ticker * nat :=
  match pairs_data with
  | [] => (tickers, excluded_count)
  | pair_data :: rest =>
      if touches_converter_currency pair_data then
        coingecko_loop use_cache rest tickers (S excluded_count)
      else
        coingecko_loop use_cache rest
          (tickers ++ [format_coingecko_ticker pair_data use_cache]) excluded_count
  end.

Definition generate_coingecko_tickers (pairs_data : list DataIntegration.pair_data)
    (use_cache : bool) : list coingecko_ticker :=
  fst (coingecko_loop use_cache pairs_data [] 0%nat).

(** [format_coingecko_response] runs the same loop and formats without the
    cache. *)
Definition format_coingecko_response (pairs_data : list DataIntegration.pair_data)
    : list coingecko_ticker :=
  fst (coingecko_loop false pairs_data [] 0%nat).

End World.

End CoinGecko.

(** ** Coinpaprika tickers ([ticker_formatting.py]) *)

Module Coinpaprika.

(** The value the [defaultdict] holds per pair key; [low_price] is [None]
    while it is [float('inf')]. *)
Record aggregate := {
  base_volume : Q;
  target_volume : Q;
  price_sum : Q;
  price_weight : Q;
  high_price : Q;
  low_price : option Q;
  base_symbol : string;
  target_symbol : string;
  count : nat;
  valid_prices : bool
}.

Definition fresh_aggregate : aggregate :=
  {| base_volume := 0; target_volume := 0; price_sum := 0; price_weight := 0;
     high_price := 0; low_price := None; base_symbol := ""; target_symbol := "";
     count := 0; valid_prices := false |}.

(** A ticker in the [allTickers] format. *)
Record ticker := {
  symbol : string;
  symbolName : string;
  volume : Z;
  last : Z;
  high : Z;
  low : Z;
  open : Z
}.

(** [max(a, b)] and [min(a, b)] on floats: the first argument unless the
    second is strictly beyond it. *)
Definition py_max (a b : Q) : Q := if py_gt b a then b else a.
Definition py_min (a b : Q) : Q := if py_lt b a then b else a.

(** [(high + low) / 2] stands in for a last price that is not positive. *)
Definition effective_price (pair_data : DataIntegration.pair_data) : Q :=
  let last_price := DataIntegration.last_price pair_data in
  let high_price := DataIntegration.high pair_data in
  let low_price := DataIntegration.low pair_data in
  if py_le last_price 0 && py_gt high_price 0 && py_gt low_price 0
  then (high_price + low_price) / 2
  else last_price.

(** What one pair does to the aggregate of its key. *)
Definition add_pair (base_erc_symbol target_erc_symbol : string)
    (pair_data : DataIntegration.pair_data) (agg : aggregate) : aggregate :=
  let base_volume' := DataIntegration.base_volume pair_data in
  let target_volume' := DataIntegration.target_volume pair_data in
  let high_price' := DataIntegration.high pair_data in
  let low_price' := DataIntegration.low pair_data in
  let unnamed := String.eqb (base_symbol agg) "" in
  let effective_price := effective_price pair_data in
  let priced := py_gt effective_price 0 in
  let weight := target_volume' in
  {| base_volume := base_volume agg + base_volume';
     target_volume := target_volume agg + target_volume';
     price_sum :=
       if priced then price_sum agg + effective_price * weight else price_sum agg;
     price_weight := if priced then price_weight agg + weight else price_weight agg;
     high_price :=
       if py_gt high_price' 0 then py_max (high_price agg) high_price'
       else high_price agg;
     low_price :=
       if py_gt low_price' 0 then
         match low_price agg with
         | None => Some low_price'
         | Some l => Some (py_min l low_price')
         end
       else low_price agg;
     base_symbol := if unnamed then base_erc_symbol else base_symbol agg;
     target_symbol := if unnamed then target_erc_symbol else target_symbol agg;
     count := S (count agg);
     valid_prices := if priced then true else valid_prices agg |}.

(** [agg = pair_aggregation[pair_key]] followed by the updates of [agg]:
    the entry is changed in place, or appended from the default when the
    key is new. *)
Fixpoint update_entry (pair_aggregation : list (string * aggregate)) (pair_key : string)
    (f : aggregate -> aggregate) : list (string * aggregate) :=
  match pair_aggregation with
  | [] => [(pair_key, f fresh_aggregate)]
  | (k, agg) :: rest =>
      if String.eqb k pair_key then (k, f agg) :: rest
      else (k, agg) :: update_entry rest pair_key f
  end.

Definition lookup_entry (pair_aggregation : list (string * aggregate)) (pair_key : string)
    : option aggregate :=
  snd <$> List.find (fun kv => String.eqb (fst kv) pair_key) pair_aggregation.

(** The ticker made from an aggregate. *)
Definition final_ticker (agg : aggregate) : option ticker :=
  if py_gt (base_volume agg) 0 then
    let weighted_avg_price :=
      if py_gt (price_weight agg) 0 && valid_prices agg
      then price_sum agg / price_weight agg
      else 0 in
    let low_price := default weighted_avg_price (low_price agg) in
    Some {| symbol := base_symbol agg +:+ "-" +:+ target_symbol agg;
            symbolName := base_symbol agg +:+ "-" +:+ target_symbol agg;
            volume := TickerFormatting.format8 (base_volume agg);
            last := TickerFormatting.format8 weighted_avg_price;
            high := TickerFormatting.format8 (high_price agg);
            low := TickerFormatting.format8 low_price;
            open := TickerFormatting.format8 (high_price agg) |}
  else None.

(** [final_tickers.sort(key=volume, reverse=True)].  The sort of Python is
    stable, and a stable sort is determined by its input: each ticker goes
    behind the ones of the same or larger volume that came before it. *)
Fixpoint insert_by_volume (x : ticker) (sorted : list ticker) : list ticker :=
  match sorted with
  | [] => [x]
  | y :: rest =>
      if (volume y <? volume x)%Z then x :: y :: rest
      else y :: insert_by_volume x rest
  end.

Definition sort_by_volume (final_tickers : list ticker) : list ticker :=
  fold_left (fun sorted x => insert_by_volume x sorted) final_tickers [].

Section Mapping.

Variable currency_contract_mapping : list (string * Dict.contract_info).

(** [f"{base_erc_symbol}_{target_erc_symbol}"] *)
Definition pair_key_of (pair_data : DataIntegration.pair_data) : string :=
  Dict.get_erc20_symbol currency_contract_mapping
    (DataIntegration.base_currency_id pair_data) (DataIntegration.base_currency pair_data)
  +:+ "_"
  +:+ Dict.get_erc20_symbol currency_contract_mapping
        (DataIntegration.target_currency_id pair_data)
        (DataIntegration.target_currency pair_data).

(** A pair that reaches the aggregate of its key: not touching a
    converter currency and with positive base volume. *)
Definition counted (pair_data : DataIntegration.pair_data) : bool :=
  negb (CoinGecko.touches_converter_currency pair_data)
  && py_gt (DataIntegration.base_volume pair_data) 0.

(** One pass of the loop of [generate_coinpaprika_tickers]. *)
Definition paprika_step (pair_aggregation : list (string * aggregate))
    (pair_data : DataIntegration.pair_data) : list (string * aggregate) :=
  if CoinGecko.touches_converter_currency pair_data then pair_aggregation
  else
    let base_erc_symbol :=
      Dict.get_erc20_symbol currency_contract_mapping
        (DataIntegration.base_currency_id pair_data)
        (DataIntegration.base_currency pair_data) in
    let target_erc_symbol :=
      Dict.get_erc20_symbol currency_contract_mapping
        (DataIntegration.target_currency_id pair_data)
        (DataIntegration.target_currency pair_data) in
    let pair_key := base_erc_symbol +:+ "_" +:+ target_erc_symbol in
    if py_le (DataIntegration.base_volume pair_data) 0 then pair_aggregation
    else update_entry pair_aggregation pair_key
           (add_pair base_erc_symbol target_erc_symbol pair_data).

Definition paprika_aggregation (pairs_data : list DataIntegration.pair_data)
    : list (string * aggregate) :=
  fold_left paprika_step pairs_data [].

Definition generate_coinpaprika_tickers (pairs_data : list DataIntegration.pair_data)
    : list ticker :=
  sort_by_volume (omap (fun kv => final_ticker (snd kv)) (paprika_aggregation pairs_data)).

(** The pairs that reach the aggregate of a key, in the order of the
    input, and the ones among them whose effective price is positive. *)
Definition contributors (pair_key : string) (pairs_data : list DataIntegration.pair_data)
    : list DataIntegration.pair_data :=
  List.filter (fun pair_data => counted pair_data && String.eqb (pair_key_of pair_data) pair_key)
    pairs_data.

Definition priced (pair_data : DataIntegration.pair_data) : bool :=
  py_gt (effective_price pair_data) 0.

(** The exact sum of a figure over pairs. *)
Definition total (figure : DataIntegration.pair_data -> Q)
    (pairs_data : list DataIntegration.pair_data) : Q :=
  fold_right Qplus 0 (List.map figure pairs_data).

End Mapping.

End Coinpaprika.

(** ** VRSC locked in converters ([verussupply.py]) *)

Module Supply.

(** An element of [converter_details]. *)
Record converter_detail := {
  detail_converter : option string;
  vrsc_reserve : Q;
  detail_currency_id : string;
  detail_chain : string
}.

(** The loop over the active converters of
    [get_vrsc_reserves_from_converters]: the first reserve with ticker
    VRSC ends the search in a converter, and counts when it is positive. *)
Fixpoint reserves_loop (active_converters : list converter_info)
    (total_vrsc_reserves : Q) (converter_details : list converter_detail)
    : Q * list converter_detail :=
  match active_converters with
  | [] => (total_vrsc_reserves, converter_details)
  | converter :: rest =>
      match List.find (fun reserve_currency => String.eqb (ticker reserve_currency) "VRSC")
              (info_reserve_currencies converter) with
      | Some reserve_currency =>
          let vrsc_amount := reserves reserve_currency in
          if py_gt vrsc_amount 0 then
            reserves_loop rest (total_vrsc_reserves + vrsc_amount)
              (converter_details ++
               [{| detail_converter := name converter;
                   vrsc_reserve := vrsc_amount;
                   detail_currency_id := rcurrency_id reserve_currency;
                   detail_chain := chain converter |}])
          else reserves_loop rest total_vrsc_reserves converter_details
      | None => reserves_loop rest total_vrsc_reserves converter_details
      end
  end.

(** [get_vrsc_reserves_from_converters], given the [active_converters] of
    the discovery file, [None] when the file is missing or cannot be
    read. *)
Definition get_vrsc_reserves_from_converters
    (discovery_file : option (list converter_info)) : Q * list converter_detail :=
  match discovery_file with
  | None => (0, [])
  | Some active_converters => reserves_loop active_converters 0 []
  end.

End Supply.

(** ** Further samples *)

Module MoreSamples.
Import Discovery Liquidity TickerFormatting Samples.

(** A discovery run over VRSC and CHIPS on the sample daemons. *)
Definition two_chain_discovery : discovery_result :=
  discover_active_converters two_chain_daemon env_documented float_of_digits
    ticker_is_id 3500000 (Some ["VRSC"; "CHIPS"]).

(** The pool that holds 5 VRSC, as discovery hands it on. *)
Definition dust_info : converter_info :=
  extract_converter_info ticker_is_id tagged_dust.

(** A converter whose supply has gone to zero. *)
Definition drained_info : converter_info :=
  extract_converter_info sample_ticker
    (set_source_chain "VRSC"
       (daemon_converter "iHax5qYQGbcMGqJKKrPorpzUBX2oFFXGnY" "Pure" 0
          [raw vrsc_id (1#2) 0; raw "iS8TfRPfVpKo5FVfSUzfHBQxo9KuzpnqLU" (1#2) 0])).

(** A currency mapping with entries for VRSC and DAI.vETH, both exported
    to Ethereum. *)
Definition sample_mapping : list (string * Dict.contract_info) :=
  [(vrsc_id,
    {| Dict.address := Some "0xBc2738BA63882891094C99E59a02141Ca1A1C36a";
       Dict.eth_symbol := Some "VRSC";
       Dict.vrsc_symbol := Some "VRSC" |});
   ("iGBs4DWztRNvNEJBt4mqHszLxfKTNHTkhM",
    {| Dict.address := Some "0x6B175474E89094C44Da98b954EedeAC495271d0F";
       Dict.eth_symbol := Some "DAI";
       Dict.vrsc_symbol := Some "DAI.vETH" |})].

(** Two converters trading [VRSC -> DAI.vETH]. *)
Definition two_pools : list DataIntegration.pair_data :=
  [contribution "Bridge.vETH" 100 50 2; contribution "NATI" 50 25 4].

(** The Coinpaprika ticker of [two_pools]: volume 150, last price
    2.66666667, high 4, low 2. *)
Definition vrsc_dai_ticker : Coinpaprika.ticker :=
  {| Coinpaprika.symbol := "VRSC-DAI";
     Coinpaprika.symbolName := "VRSC-DAI";
     Coinpaprika.volume := 15000000000;
     Coinpaprika.last := 266666667;
     Coinpaprika.high := 400000000;
     Coinpaprika.low := 200000000;
     Coinpaprika.open := 400000000 |}.

End MoreSamples.
(** * Properties *)

(** ** Comparisons *)

Lemma py_le_spec x y : py_le x y = true <-> x <= y.
Proof. apply Qle_bool_iff. Qed.

Lemma py_lt_spec x y : py_lt x y = true <-> x < y.
Proof.
  unfold py_lt. rewrite negb_true_iff, <- not_true_iff_false, Qle_bool_iff.
  split; [apply Qnot_le_lt | apply Qlt_not_le].
Qed.

Lemma py_le_false x y : py_le x y = false <-> y < x.
Proof.
  rewrite <- py_lt_spec. unfold py_lt, py_le.
  destruct (Qle_bool x y); simpl; split; congruence.
Qed.

Lemma py_lt_false x y : py_lt x y = false <-> y <= x.
Proof.
  rewrite <- py_le_spec. unfold py_lt, py_le.
  destruct (Qle_bool y x); simpl; split; congruence.
Qed.


(** ** Converter discovery *)

Module DiscoveryFacts.
Import Discovery.

Lemma bridge_filter_loop_step chain c l acc n :
  bridge_filter_loop chain (c :: l) acc n =
  if kept_on_chain chain c then bridge_filter_loop chain l (acc ++ [c]) n
  else bridge_filter_loop chain l acc (S n).
Proof.
  simpl. unfold kept_on_chain.
  destruct (startswith _ _); [destruct (bool_decide _)|]; reflexivity.
Qed.

Lemma bridge_filter_loop_spec chain l acc n :
  bridge_filter_loop chain l acc n =
  (acc ++ List.filter (kept_on_chain chain) l,
   (n + length (List.filter (fun c => negb (kept_on_chain chain c)) l))%nat).
Proof.
  revert acc n. induction l as [|c l IH]; intros acc n.
  - simpl. by rewrite List.app_nil_r, Nat.add_0_r.
  - rewrite bridge_filter_loop_step. simpl.
    destruct (kept_on_chain chain c); simpl; rewrite IH; f_equal.
    + by rewrite <- app_assoc.
    + lia.
Qed.

Lemma filter_bridge_converters_by_chain_filter l chain :
  filter_bridge_converters_by_chain l chain = List.filter (kept_on_chain chain) l.
Proof. unfold filter_bridge_converters_by_chain. by rewrite bridge_filter_loop_spec. Qed.

Lemma elem_of_filter_bridge c l chain :
  c ∈ filter_bridge_converters_by_chain l chain <-> c ∈ l /\ kept_on_chain chain c = true.
Proof.
  rewrite filter_bridge_converters_by_chain_filter, !list_elem_of_In.
  apply filter_In.
Qed.

(** Every name of the home-chain table is a bridge name. *)
Lemma table_names_are_bridges n Y :
  bridge_converter_chains !! n = Some Y -> startswith n "Bridge." = true.
Proof.
  unfold bridge_converter_chains. intros H.
  repeat (rewrite lookup_insert in H; case_decide; [subst; reflexivity|]).
  by rewrite lookup_empty in H.
Qed.

(** A converter named in the table survives the filter of its home chain
    and of no other chain. *)
Lemma kept_on_chain_mapped chain c n Y :
  bridge_converter_chains !! n = Some Y ->
  fullyqualifiedname c = Some n ->
  kept_on_chain chain c = bool_decide (chain = Y).
Proof.
  intros HT Hn. unfold kept_on_chain. rewrite Hn. simpl.
  rewrite (table_names_are_bridges _ _ HT), HT.
  apply bool_decide_ext. split; congruence.
Qed.

Lemma count_named_app n l1 l2 :
  count_named n (l1 ++ l2) = (count_named n l1 + count_named n l2)%nat.
Proof. unfold count_named. by rewrite List.filter_app, length_app. Qed.

Lemma count_named_none n l :
  (forall c, c ∈ l -> fullyqualifiedname c <> Some n) -> count_named n l = 0%nat.
Proof.
  unfold count_named. induction l as [|c l IH]; intros H; simpl; [done|].
  rewrite bool_decide_eq_false_2 by (apply H; left).
  apply IH. intros c' Hc'. apply H. by right.
Qed.

Lemma count_named_tag n X l :
  count_named n (List.map (set_source_chain X) l) = count_named n l.
Proof.
  unfold count_named. induction l as [|c l IH]; simpl; [done|].
  destruct (bool_decide _); simpl; by rewrite IH.
Qed.

Lemma count_named_filter_keep n (P : converter -> bool) l :
  (forall c, fullyqualifiedname c = Some n -> P c = true) ->
  count_named n (List.filter P l) = count_named n l.
Proof.
  intros H. unfold count_named. induction l as [|c l IH]; simpl; [done|].
  destruct (P c) eqn:HP; simpl.
  - destruct (bool_decide _); simpl; by rewrite IH.
  - rewrite IH. rewrite bool_decide_eq_false_2; [done|].
    intros Hn. apply H in Hn. congruence.
Qed.

Lemma count_named_filter_drop n (P : converter -> bool) l :
  (forall c, fullyqualifiedname c = Some n -> P c = false) ->
  count_named n (List.filter P l) = 0%nat.
Proof.
  intros H. apply count_named_none. intros c Hc Hn.
  apply list_elem_of_In, filter_In in Hc as [_ HP].
  apply H in Hn. congruence.
Qed.

Section World.

Variable make_rpc_call : string -> string -> converters_reply.
Variable getenv : string -> option string.
Variable float_of_string : string -> option Q.
Variable get_ticker_by_id : string -> string.
Variable get_session_block_height : Z.

Local Abbreviation chain_yield := (chain_yield make_rpc_call).
Local Abbreviation chain_report := (chain_report make_rpc_call).
Local Abbreviation merged_converters := (merged_converters make_rpc_call).
Local Abbreviation chain_record := (chain_record make_rpc_call).
Local Abbreviation discover_loop := (discover_loop make_rpc_call).
Local Abbreviation holdings_loop := (holdings_loop getenv float_of_string).
Local Abbreviation meets_minimum := (meets_minimum getenv float_of_string).
Local Abbreviation get_min_native_tokens := (get_min_native_tokens getenv float_of_string).
Local Abbreviation filter_converters_by_native_holdings :=
  (filter_converters_by_native_holdings getenv float_of_string).
Local Abbreviation extract_converter_info := (extract_converter_info get_ticker_by_id).
Local Abbreviation discover_active_converters :=
  (discover_active_converters make_rpc_call getenv float_of_string
     get_ticker_by_id get_session_block_height).

Lemma chain_yield_report X :
  chain_yield X =
  List.map (set_source_chain X) (filter_bridge_converters_by_chain (chain_report X) X).
Proof.
  unfold Discovery.chain_yield, Discovery.chain_report.
  destruct (get_all_converters _ _ _) as [[|c l]|]; reflexivity.
Qed.

Lemma elem_of_chain_yield c X :
  c ∈ chain_yield X ->
  exists c0, c = set_source_chain X c0 /\ c0 ∈ chain_report X /\ kept_on_chain X c0 = true.
Proof.
  rewrite chain_yield_report. intros Hc.
  apply list_elem_of_In, in_map_iff in Hc as (c0 & <- & Hc0).
  apply list_elem_of_In, elem_of_filter_bridge in Hc0. eauto.
Qed.

Lemma chain_record_converters X : converters (chain_record X) = chain_yield X.
Proof.
  unfold Discovery.chain_record, Discovery.chain_yield.
  destruct (get_all_converters _ _ _) as [[|c l]|]; reflexivity.
Qed.

Lemma chain_record_count X : count (chain_record X) = length (chain_yield X).
Proof.
  unfold Discovery.chain_record, Discovery.chain_yield.
  destruct (get_all_converters _ _ _) as [[|c l]|]; reflexivity.
Qed.

Lemma discover_loop_step X cs acc m :
  discover_loop (X :: cs) acc m =
  discover_loop cs (acc ++ chain_yield X) (<[X := chain_record X]> m).
Proof.
  simpl. unfold Discovery.chain_record, Discovery.chain_yield.
  destruct (get_all_converters _ _ _) as [[|c l]|];
    rewrite ?List.app_nil_r; reflexivity.
Qed.

Lemma discover_loop_spec cs acc m :
  discover_loop cs acc m =
  (acc ++ List.concat (List.map chain_yield cs),
   foldl (fun m X => <[X := chain_record X]> m) m cs).
Proof.
  revert acc m. induction cs as [|X cs IH]; intros acc m.
  - simpl. by rewrite List.app_nil_r.
  - rewrite discover_loop_step, IH. simpl. by rewrite <- app_assoc.
Qed.

Lemma merged_converters_concat cs :
  merged_converters cs = List.concat (List.map chain_yield cs).
Proof. unfold Discovery.merged_converters. by rewrite discover_loop_spec. Qed.

Lemma lookup_chain_results cs (m : gmap string chain_result) X :
  foldl (fun m X => <[X := chain_record X]> m) m cs !! X =
  if bool_decide (X ∈ cs) then Some (chain_record X) else m !! X.
Proof.
  revert m. induction cs as [|Y cs IH]; intros m; simpl; [done|].
  rewrite IH. destruct (decide (X ∈ cs)) as [Hin|Hin].
  - rewrite !bool_decide_eq_true_2; [done| by right | done].
  - rewrite (bool_decide_eq_false_2 (X ∈ cs)) by done.
    destruct (decide (X = Y)) as [->|Hne].
    + rewrite lookup_insert_eq, bool_decide_eq_true_2; [done | by left].
    + rewrite lookup_insert_ne by done.
      rewrite bool_decide_eq_false_2; [done|].
      intros [?|?]%elem_of_cons; done.
Qed.

(** *** The holdings filter *)

Lemma holdings_loop_step c l inc exc :
  holdings_loop (c :: l) inc exc =
  match meets_minimum c with
  | None => None
  | Some true => holdings_loop l (inc ++ [c]) exc
  | Some false => holdings_loop l inc (exc ++ [c])
  end.
Proof.
  simpl. unfold Discovery.meets_minimum.
  destruct (get_min_native_tokens _); reflexivity.
Qed.

Lemma holdings_loop_ok l inc exc :
  (forall c, c ∈ l -> is_Some (meets_minimum c)) ->
  holdings_loop l inc exc =
  Some (inc ++ List.filter (fun c => bool_decide (meets_minimum c = Some true)) l,
        exc ++ List.filter (fun c => bool_decide (meets_minimum c = Some false)) l).
Proof.
  revert inc exc. induction l as [|c l IH]; intros inc exc Hall.
  - simpl. by rewrite !List.app_nil_r.
  - rewrite holdings_loop_step.
    destruct (Hall c) as [b Hb]; [by left|].
    assert (Hl : forall c', c' ∈ l -> is_Some (meets_minimum c'))
      by (intros c' Hc'; apply Hall; by right).
    simpl. rewrite Hb.
    destruct b; rewrite IH by done; simpl; by rewrite <- ?app_assoc.
Qed.

Lemma holdings_loop_raises l inc exc :
  (exists c, c ∈ l /\ meets_minimum c = None) ->
  holdings_loop l inc exc = None.
Proof.
  revert inc exc. induction l as [|c l IH]; intros inc exc (c' & Hin & Hc').
  - by apply elem_of_nil in Hin.
  - rewrite holdings_loop_step.
    destruct (meets_minimum c) as [[|]|] eqn:Hc; [| |done];
      apply IH; apply elem_of_cons in Hin as [->|Hin]; try congruence; eauto.
Qed.

Lemma meets_minimum_None c :
  meets_minimum c = None <->
  get_min_native_tokens (default "VRSC" (source_chain c)) = None.
Proof.
  unfold Discovery.meets_minimum.
  destruct (get_min_native_tokens _); split; congruence.
Qed.

Lemma meets_minimum_Some c m :
  get_min_native_tokens (default "VRSC" (source_chain c)) = Some m ->
  meets_minimum c =
  Some (py_ge (get_native_token_holdings c (default "VRSC" (source_chain c))) m).
Proof. unfold Discovery.meets_minimum. by intros ->. Qed.

(** Whatever path the filter takes, its two lists split the input. *)
Lemma holdings_filter_split l :
  let r := filter_converters_by_native_holdings l in
  (forall c, c ∈ r.1 ++ r.2 <-> c ∈ l) /\
  (forall n, (count_named n r.1 + count_named n r.2)%nat = count_named n l).
Proof.
  unfold Discovery.filter_converters_by_native_holdings.
  destruct (decide (Forall (fun c => is_Some (meets_minimum c)) l)) as [Hall|Hex].
  - rewrite Forall_forall in Hall. rewrite holdings_loop_ok by done. simpl.
    split.
    + intros c. rewrite elem_of_app, !list_elem_of_In, !filter_In.
      rewrite !bool_decide_eq_true. split; [tauto|].
      intros Hc. destruct (Hall c) as [[|] Hb]; [by apply list_elem_of_In|..]; tauto.
    + intros n. unfold count_named.
      clear -Hall. induction l as [|c l IH]; simpl; [done|].
      assert (Hl : forall c', c' ∈ l -> is_Some (meets_minimum c'))
        by (intros c' Hc'; apply Hall; by right).
      specialize (IH Hl).
      destruct (Hall c) as [b Hb]; [by left|]. rewrite Hb.
      destruct b, (bool_decide (fullyqualifiedname c = Some n)) eqn:Hn; simpl;
        rewrite ?Hn; simpl; lia.
  - apply not_Forall_Exists, Exists_exists in Hex as (c & Hc & Hnone); [|apply _].
    rewrite holdings_loop_raises.
    + simpl. split; [intros ?; by rewrite List.app_nil_r|].
      intros n. unfold count_named. simpl. lia.
    + exists c. split; [done|].
      destruct (meets_minimum c) eqn:E; [|done]. destruct Hnone. simpl. by rewrite E.
Qed.

(** *** The shape of the discovery result *)

Lemma extract_converter_info_name c :
  name (extract_converter_info c) = fullyqualifiedname c.
Proof. reflexivity. Qed.

Lemma extract_converter_info_source_chain c :
  info_source_chain (extract_converter_info c) = default "VRSC" (source_chain c).
Proof. reflexivity. Qed.

Lemma count_info_named_app n l1 l2 :
  count_info_named n (l1 ++ l2) =
  (count_info_named n l1 + count_info_named n l2)%nat.
Proof. unfold count_info_named. by rewrite List.filter_app, length_app. Qed.

Lemma count_info_named_extract n l :
  count_info_named n (List.map extract_converter_info l) = count_named n l.
Proof.
  unfold count_info_named, count_named.
  induction l as [|c l IH]; simpl; [done|].
  destruct (bool_decide _); simpl; by rewrite IH.
Qed.

Lemma discover_result_spec cs :
  let r := discover_active_converters (Some cs) in
  let found := active_converters r ++ excluded_converters r in
  chains r = foldl (fun m X => <[X := chain_record X]> m) ∅ cs /\
  (forall i, i ∈ found <->
     exists c, c ∈ merged_converters cs /\ i = extract_converter_info c) /\
  (forall n, count_info_named n found = count_named n (merged_converters cs)) /\
  (error r = None <-> merged_converters cs <> []) /\
  total_count r = length (merged_converters cs).
Proof.
  unfold Discovery.discover_active_converters, Discovery.merged_converters.
  simpl. rewrite discover_loop_spec. simpl.
  destruct (concat (map chain_yield cs)) as [|c0 l0] eqn:Hm.
  - simpl. repeat split; try done.
    + by intros ?%elem_of_nil.
    + by intros (c & ?%elem_of_nil & _).
  - pose proof (holdings_filter_split (c0 :: l0)) as [Hmem Hcnt].
    destruct (filter_converters_by_native_holdings (c0 :: l0)) as [inc exc].
    simpl in *. repeat split; try done.
    + rewrite <- map_app. intros (c & <- & Hc)%list_elem_of_In%in_map_iff.
      exists c. split; [|done]. by apply Hmem, list_elem_of_In.
    + intros (c & Hc & ->). rewrite <- map_app.
      apply list_elem_of_In, in_map, list_elem_of_In, Hmem, Hc.
    + intros n. rewrite count_info_named_app, !count_info_named_extract.
      apply Hcnt.
Qed.

Lemma lookup_discovery_chains cs X :
  chains (discover_active_converters (Some cs)) !! X =
  if bool_decide (X ∈ cs) then Some (chain_record X) else None.
Proof.
  destruct (discover_result_spec cs) as (-> & _).
  by rewrite lookup_chain_results, lookup_empty.
Qed.

Lemma elem_of_merged_converters c cs :
  c ∈ merged_converters cs <-> exists X, X ∈ cs /\ c ∈ chain_yield X.
Proof.
  rewrite merged_converters_concat, list_elem_of_In, in_concat.
  split.
  - intros (l & (X & <- & HX)%in_map_iff & Hc).
    exists X. by rewrite !list_elem_of_In.
  - intros (X & HX & Hc). exists (chain_yield X).
    split; [apply in_map|]; by apply list_elem_of_In.
Qed.

(** *** Bridge de-duplication *)

Section HomeChain.

Variables (n Y : string).
Hypothesis mapped : bridge_converter_chains !! n = Some Y.

Lemma count_named_chain_yield X :
  count_named n (chain_yield X) =
  if bool_decide (X = Y) then count_named n (chain_report X) else 0%nat.
Proof.
  rewrite chain_yield_report, count_named_tag,
    filter_bridge_converters_by_chain_filter.
  case_bool_decide as HX.
  - apply count_named_filter_keep. intros c Hc.
    rewrite (kept_on_chain_mapped _ _ _ _ mapped Hc). by apply bool_decide_eq_true_2.
  - apply count_named_filter_drop. intros c Hc.
    rewrite (kept_on_chain_mapped _ _ _ _ mapped Hc). by apply bool_decide_eq_false_2.
Qed.

Lemma count_named_merged cs :
  NoDup cs ->
  count_named n (merged_converters cs) =
  if bool_decide (Y ∈ cs) then count_named n (chain_report Y) else 0%nat.
Proof.
  rewrite merged_converters_concat.
  induction 1 as [|X cs HX Hnd IH]; simpl; [done|].
  rewrite count_named_app, IH, count_named_chain_yield.
  destruct (decide (X = Y)) as [->|Hne].
  - rewrite (bool_decide_eq_true_2 (Y = Y)) by done.
    rewrite (bool_decide_eq_false_2 (Y ∈ cs)) by done.
    rewrite bool_decide_eq_true_2 by (by left). lia.
  - rewrite (bool_decide_eq_false_2 (X = Y)) by done. simpl.
    rewrite (bool_decide_ext (Y ∈ X :: cs) (Y ∈ cs)); [done|].
    rewrite elem_of_cons. intuition congruence.
Qed.

Lemma chain_yield_home c X :
  c ∈ chain_yield X -> fullyqualifiedname c = Some n ->
  X = Y /\ source_chain c = Some Y.
Proof.
  intros (c0 & -> & _ & Hkept)%elem_of_chain_yield Hn. simpl in *.
  rewrite (kept_on_chain_mapped _ _ _ _ mapped Hn) in Hkept.
  apply bool_decide_eq_true in Hkept. by subst.
Qed.

End HomeChain.



(** C9.  The result carries the top-level [error] exactly when every
    per-chain record has count zero, which is the case when every scan
    fails or comes back empty; a chain whose scan fails or is empty gets
    the all-zero record, and whatever any chain contributes is in the
    result, which then has no [error]. *)
Theorem C9_run_level_error (cs : list string) :
  let r := discover_active_converters (Some cs) in
  (is_Some (error r) <->
     forall X rec, chains r !! X = Some rec -> count rec = 0%nat) /\
  ((forall X, X ∈ cs ->
      get_all_converters make_rpc_call (Some X) X = None \/
      get_all_converters make_rpc_call (Some X) X = Some []) ->
     is_Some (error r)) /\
  (forall X, X ∈ cs ->
     get_all_converters make_rpc_call (Some X) X = None \/
     get_all_converters make_rpc_call (Some X) X = Some [] ->
     chains r !! X = Some no_converters_found) /\
  (forall X c, X ∈ cs -> c ∈ chain_yield X ->
     error r = None /\
     extract_converter_info c ∈ active_converters r ++ excluded_converters r).
Proof.
  intros r.
  destruct (discover_result_spec cs) as (_ & Hfound & _ & Herr & _).
  fold r in Hfound, Herr.
  assert (Hnone : forall X,
     get_all_converters make_rpc_call (Some X) X = None \/
     get_all_converters make_rpc_call (Some X) X = Some [] ->
     chain_record X = no_converters_found /\ chain_yield X = []).
  { intros X HX. unfold Discovery.chain_record, Discovery.chain_yield.
    by destruct HX as [-> | ->]. }
  assert (Hiff : is_Some (error r) <->
     forall X rec, chains r !! X = Some rec -> count rec = 0%nat).
  { split.
    - intros Hsome X rec HX. subst r. rewrite lookup_discovery_chains in HX.
      case_bool_decide as Hin; [|done]. injection HX as <-.
      rewrite chain_record_count.
      destruct (chain_yield X) as [|c l] eqn:Hy; [done|].
      assert (error (discover_active_converters (Some cs)) = None) as Hn.
      { apply Herr. intros Hm.
        assert (c ∈ merged_converters cs) as Hc
          by (apply elem_of_merged_converters; exists X; rewrite Hy; split; [done|by left]).
        rewrite Hm in Hc. by apply elem_of_nil in Hc. }
      rewrite Hn in Hsome. by destruct Hsome.
    - intros Hzero. destruct (error r) eqn:He; [by eexists|].
      assert (Hne : merged_converters cs <> []) by (by apply Herr).
      destruct (merged_converters cs) as [|c l] eqn:Hm; [done|].
      assert (c ∈ merged_converters cs) as Hc by (rewrite Hm; by left).
      apply elem_of_merged_converters in Hc as (X & HX & Hc).
      specialize (Hzero X (chain_record X)).
      subst r. rewrite lookup_discovery_chains, bool_decide_eq_true_2 in Hzero by done.
      specialize (Hzero eq_refl). rewrite chain_record_count in Hzero.
      destruct (chain_yield X); [by apply elem_of_nil in Hc | done]. }
  split; [done|]. split; [|split].
  - intros Hall. apply Hiff. intros X rec HX.
    subst r. rewrite lookup_discovery_chains in HX.
    case_bool_decide as Hin; [|done]. injection HX as <-.
    by destruct (Hnone X (Hall X Hin)) as [-> _].
  - intros X HX Hscan. subst r.
    rewrite lookup_discovery_chains, bool_decide_eq_true_2 by done.
    by destruct (Hnone X Hscan) as [-> _].
  - intros X c HX Hc.
    assert (c ∈ merged_converters cs) as Hm
      by (apply elem_of_merged_converters; eauto).
    split.
    + apply Herr. intros Heq. rewrite Heq in Hm. by apply elem_of_nil in Hm.
    + apply Hfound. eauto.
Qed.

(** C2 (as amended).  When the minimum of every source chain in the input
    can be read, a converter whose native reserve is below the minimum of
    its source chain is in the excluded list and not in the included one,
    and a converter at or above it is in the included list and not in the
    excluded one. *)
Theorem C2_holdings_filter (converters_data : list converter) (c : converter) (m : Q) :
  (forall c', c' ∈ converters_data ->
     is_Some (get_min_native_tokens (default "VRSC" (source_chain c')))) ->
  c ∈ converters_data ->
  get_min_native_tokens (default "VRSC" (source_chain c)) = Some m ->
  let native_holdings :=
    get_native_token_holdings c (default "VRSC" (source_chain c)) in
  let r := filter_converters_by_native_holdings converters_data in
  (native_holdings < m -> c ∈ r.2 /\ c ∉ r.1) /\
  (m <= native_holdings -> c ∈ r.1 /\ c ∉ r.2).
Proof.
  intros Hall Hc Hm h r. subst r.
  unfold Discovery.filter_converters_by_native_holdings.
  rewrite holdings_loop_ok.
  2:{ intros c' Hc'. destruct (Hall c' Hc') as [m' Hm'].
      rewrite (meets_minimum_Some _ _ Hm'). by eexists. }
  simpl. rewrite !list_elem_of_In, !filter_In, !bool_decide_eq_true.
  rewrite (meets_minimum_Some _ _ Hm). fold h.
  apply list_elem_of_In in Hc.
  split; intros Hcmp.
  - apply py_le_false in Hcmp. unfold py_ge. rewrite Hcmp.
    split; [done|]. intros [_ ?]. done.
  - apply py_le_spec in Hcmp. unfold py_ge. rewrite Hcmp.
    split; [done|]. intros [_ ?]. done.
Qed.

(** C10.  When reading the minimum raises for some converter of the
    input, the filter returns the whole input as included and nothing as
    excluded. *)
Theorem C10_filter_error_bypass (converters_data : list converter) :
  (exists c, c ∈ converters_data /\
     get_min_native_tokens (default "VRSC" (source_chain c)) = None) ->
  filter_converters_by_native_holdings converters_data = (converters_data, []).
Proof.
  intros (c & Hc & Hnone).
  unfold Discovery.filter_converters_by_native_holdings.
  rewrite holdings_loop_raises; [done|].
  exists c. split; [done|]. by apply meets_minimum_None.
Qed.

End World.

(** *** The properties on the sample daemons *)

Import Samples.

(** The scenario of the specification: VRSC and CHIPS both report
  [Bridge.CHIPS]; the active set lists it once, tagged CHIPS. *)
Example two_chain_scan_active_set :
List.map (fun i => (name i, info_source_chain i))
  (active_converters
     (discover_active_converters two_chain_daemon env_documented float_of_digits
        ticker_is_id 3500000 (Some ["VRSC"; "CHIPS"]))) =
[(Some "Bridge.vETH", "VRSC"); (Some "Bridge.CHIPS", "CHIPS")].
Proof. vm_compute. reflexivity. Qed.




Lemma C2_holdings_filter_counterexample :
~ below_minimum_never_included env_typo float_of_digits.
Proof.
intros H.
destruct (H [tagged_dust; tagged_bridge_chips] tagged_dust 1000) as [Hex _].
- by left.
- reflexivity.
- reflexivity.
- vm_compute in Hex. by apply elem_of_nil in Hex.
Qed.

Lemma C2_holdings_filter_witness :
let r := filter_converters_by_native_holdings env_documented float_of_digits
           [tagged_dust; tagged_bridge_chips] in
tagged_dust ∈ r.2 /\ tagged_dust ∉ r.1.
Proof.
apply (C2_holdings_filter env_documented float_of_digits
         [tagged_dust; tagged_bridge_chips] tagged_dust 1000).
- intros c' [->|[->|[]%elem_of_nil]%elem_of_cons]%elem_of_cons;
    vm_compute; by eexists.
- by left.
- reflexivity.
- reflexivity.
Defined.

Lemma C10_filter_error_bypass_witness :
filter_converters_by_native_holdings env_typo float_of_digits
  [tagged_dust; tagged_bridge_chips] =
([tagged_dust; tagged_bridge_chips], []).
Proof.
apply (C10_filter_error_bypass env_typo float_of_digits).
exists tagged_bridge_chips. split; [by right; left | reflexivity].
Defined.

Lemma C9_run_level_error_witness :
  let r := discover_active_converters two_chain_daemon env_documented float_of_digits
             ticker_is_id 3500000 (Some ["VRSC"; "CHIPS"; "VARRR"]) in
  chains r !! "VARRR" = Some no_converters_found /\ error r = None.
Proof.
  pose proof (C9_run_level_error two_chain_daemon env_documented float_of_digits
                ticker_is_id 3500000 ["VRSC"; "CHIPS"; "VARRR"]) as (_ & _ & Hzero & Hpart).
  split.
  - apply Hzero; [by right; right; left | by left].
  - apply (Hpart "CHIPS" (set_source_chain "CHIPS" bridge_chips));
      [by right; left | vm_compute; by left].
Defined.

(** With the documented thresholds the same input loses the dust pool. *)
Example documented_thresholds_exclude_dust :
filter_converters_by_native_holdings env_documented float_of_digits
  [tagged_dust; tagged_bridge_chips] =
([tagged_bridge_chips], [tagged_dust]).
Proof. vm_compute. reflexivity. Qed.

(** When no daemon answers, the result is the error record. *)
Example unreachable_daemons_error :
error (discover_active_converters unreachable_daemon env_documented float_of_digits
         ticker_is_id 3500000 (Some ["VRSC"; "CHIPS"])) =
Some "Failed to fetch converters from any chain".
Proof. vm_compute. reflexivity. Qed.

End DiscoveryFacts.

(** ** Liquidity calculator *)

Module LiquidityFacts.
Import Liquidity.

Lemma hop_fails_rate reply : hop_fails reply -> default 0 (hop_rate reply) <= 0.
Proof.
  unfold hop_fails. destruct (hop_rate reply); simpl; [done|]. intros _. apply Qle_refl.
Qed.

Lemma weights_loop_total l b t bw tw W b' t' bw' tw' :
  (weights_loop l b t bw tw W).2 = (weights_loop l b' t' bw' tw' W).2.
Proof.
  revert bw tw W bw' tw'. induction l as [|rc l IH]; intros; simpl; [done|]. apply IH.
Qed.

Lemma weights_loop_sum l b t bw tw W :
  (weights_loop l b t bw tw W).2 == W + fold_right (fun rc acc => weight rc + acc) 0 l.
Proof.
  revert bw tw W. induction l as [|rc l IH]; intros; simpl.
  - ring.
  - rewrite IH. ring.
Qed.

Lemma find_app_last {A : Type} (f : A -> bool) (l : list A) (x : A) :
  List.find f (l ++ [x]) =
  match List.find f l with
  | Some y => Some y
  | None => if f x then Some x else None
  end.
Proof.
  induction l as [|a l IH]; simpl; [done|]. by destruct (f a).
Qed.

(** The weight read for a currency is that of the last reserve with its
    ticker, and [0] when no reserve has it. *)
Lemma weights_loop_base l b t bw tw W :
  (weights_loop l b t bw tw W).1.1 =
  match List.find (fun rc => String.eqb (ticker rc) b) (rev l) with
  | Some rc => weight rc
  | None => bw
  end.
Proof.
  revert bw tw W. induction l as [|rc l IH]; intros bw tw W; simpl; [done|].
  rewrite IH, find_app_last.
  destruct (List.find _ (rev l)); [done|]. by destruct (String.eqb _ _).
Qed.

Lemma weights_loop_target l b t bw tw W :
  (weights_loop l b t bw tw W).1.2 =
  match List.find (fun rc => String.eqb (ticker rc) t) (rev l) with
  | Some rc => weight rc
  | None => tw
  end.
Proof.
  revert bw tw W. induction l as [|rc l IH]; intros bw tw W; simpl; [done|].
  rewrite IH, find_app_last.
  destruct (List.find _ (rev l)); [done|]. by destruct (String.eqb _ _).
Qed.

Lemma total_weight_of_sum i :
  total_weight_of i ==
  fold_right (fun rc acc => weight rc + acc) 0 (info_reserve_currencies i).
Proof. unfold total_weight_of. rewrite weights_loop_sum. ring. Qed.

Lemma base_weight_of_last i b t :
  base_weight_of i b t =
  match List.find (fun rc => String.eqb (ticker rc) b) (rev (info_reserve_currencies i)) with
  | Some rc => weight rc
  | None => 0
  end.
Proof. apply weights_loop_base. Qed.

Lemma target_weight_of_last i b t :
  target_weight_of i b t =
  match List.find (fun rc => String.eqb (ticker rc) t) (rev (info_reserve_currencies i)) with
  | Some rc => weight rc
  | None => 0
  end.
Proof. apply weights_loop_target. Qed.

Section World.

Variable make_rpc_call : string -> conversion_params -> estimate_reply.

Local Abbreviation vrsc_usd_reply := (vrsc_usd_reply make_rpc_call).
Local Abbreviation chain_to_vrsc_reply := (chain_to_vrsc_reply make_rpc_call).
Local Abbreviation native_ratio_reply := (native_ratio_reply make_rpc_call).
Local Abbreviation get_vrsc_usd_price_cached := (get_vrsc_usd_price_cached make_rpc_call).
Local Abbreviation get_chain_to_vrsc_rate := (get_chain_to_vrsc_rate make_rpc_call).
Local Abbreviation get_chain_usd_price := (get_chain_usd_price make_rpc_call).
Local Abbreviation native_ratio_of := (native_ratio_of make_rpc_call).
Local Abbreviation native_usd_price_of := (native_usd_price_of make_rpc_call).
Local Abbreviation native_usd_hops_fail := (native_usd_hops_fail make_rpc_call).
Local Abbreviation get_converter_liquidity := (get_converter_liquidity make_rpc_call).
Local Abbreviation get_pair_liquidity := (get_pair_liquidity make_rpc_call).

Lemma get_vrsc_usd_price_cached_rate :
  get_vrsc_usd_price_cached = default 0 (hop_rate vrsc_usd_reply).
Proof.
  unfold Liquidity.get_vrsc_usd_price_cached.
  by destruct vrsc_usd_reply as [| |[[]|]].
Qed.

Lemma get_chain_to_vrsc_rate_rate chain :
  get_chain_to_vrsc_rate chain = default 0 (hop_rate (chain_to_vrsc_reply chain)).
Proof.
  unfold Liquidity.get_chain_to_vrsc_rate.
  by destruct (chain_to_vrsc_reply chain) as [| |[[]|]].
Qed.

Lemma get_chain_usd_price_nonneg chain : 0 <= get_chain_usd_price chain.
Proof.
  unfold Liquidity.get_chain_usd_price.
  destruct (py_le (get_chain_to_vrsc_rate chain) 0) eqn:H1; [apply Qle_refl|].
  destruct (py_le get_vrsc_usd_price_cached 0) eqn:H2; [apply Qle_refl|].
  apply py_le_false in H1, H2. apply Qlt_le_weak. by apply Qmult_lt_0_compat.
Qed.

(** A failing hop behind the USD price leaves no positive price. *)
Lemma native_usd_hops_fail_price source_chain :
  native_usd_hops_fail source_chain -> py_le (native_usd_price_of source_chain) 0 = true.
Proof.
  unfold Liquidity.native_usd_hops_fail, Liquidity.native_usd_price_of.
  destruct (String.eqb source_chain "VRSC").
  - intros H%hop_fails_rate. rewrite get_vrsc_usd_price_cached_rate.
    by apply py_le_spec.
  - intros H. unfold Liquidity.get_chain_usd_price.
    destruct (py_le (get_chain_to_vrsc_rate source_chain) 0) eqn:H1; [done|].
    destruct (py_le get_vrsc_usd_price_cached 0) eqn:H2; [done|].
    apply py_le_false in H1, H2.
    rewrite get_chain_to_vrsc_rate_rate in H1.
    rewrite get_vrsc_usd_price_cached_rate in H2.
    destruct H as [H%hop_fails_rate | H%hop_fails_rate].
    + destruct (Qlt_not_le _ _ H1 H).
    + destruct (Qlt_not_le _ _ H2 H).
Qed.

(** The two ways [get_converter_liquidity] can end. *)
Lemma get_converter_liquidity_cases converter_name converters_data threshold :
  get_converter_liquidity converter_name converters_data threshold = 0 \/
  exists info S,
    find_converter converter_name converters_data = Some info /\
    supply info = Some S /\ 0 < S /\ threshold <= S /\
    0 < native_ratio_of converter_name (default "" (currency_id info)) (info_source_chain info) /\
    0 < native_usd_price_of (info_source_chain info) /\
    get_converter_liquidity converter_name converters_data threshold =
    S * native_ratio_of converter_name (default "" (currency_id info)) (info_source_chain info)
      * native_usd_price_of (info_source_chain info).
Proof.
  unfold Liquidity.get_converter_liquidity.
  destruct (find_converter _ _) as [info|]; [|by left].
  destruct (supply info) as [S|] eqn:HS; [|by left].
  destruct (falsy_str _ || py_le S 0) eqn:H0; [by left|].
  apply orb_false_iff in H0 as [_ H0].
  destruct (py_le (native_ratio_of _ _ _) 0) eqn:H1; [by left|].
  destruct (py_le (native_usd_price_of _) 0) eqn:H2; [by left|].
  destruct (py_lt S threshold) eqn:H3; [by left|].
  right. exists info, S.
  apply py_le_false in H0, H1, H2. apply py_lt_false in H3.
  by rewrite HS.
Qed.

Lemma get_converter_liquidity_nonneg converter_name converters_data threshold :
  0 <= get_converter_liquidity converter_name converters_data threshold.
Proof.
  destruct (get_converter_liquidity_cases converter_name converters_data threshold)
    as [-> | (info & S & _ & _ & HS & _ & H1 & H2 & ->)]; [apply Qle_refl|].
  apply Qlt_le_weak. repeat apply Qmult_lt_0_compat; done.
Qed.

(** C3.  When the hop that asks for the converter to native currency rate,
    or a hop behind the native currency to USD price, fails or returns a
    value [<= 0], the liquidity of the converter is [0]. *)
Theorem C3_failed_hop_zero_liquidity
    (converter_name : string) (converters_data : list converter_info)
    (min_liquidity_threshold : Q) (info : converter_info) :
  find_converter converter_name converters_data = Some info ->
  hop_fails (native_ratio_reply converter_name (default "" (currency_id info))
               (info_source_chain info)) \/
  native_usd_hops_fail (info_source_chain info) ->
  get_converter_liquidity converter_name converters_data min_liquidity_threshold = 0.
Proof.
  intros Hfind Hfail. unfold Liquidity.get_converter_liquidity. rewrite Hfind.
  destruct (supply info) as [S|]; [|done].
  destruct (falsy_str _ || py_le S 0); [done|].
  destruct Hfail as [H1%hop_fails_rate | H2%native_usd_hops_fail_price].
  - apply py_le_spec in H1. unfold Liquidity.native_ratio_of. by rewrite H1.
  - destruct (py_le (native_ratio_of _ _ _) 0); [done|]. by rewrite H2.
Qed.

Lemma get_converter_liquidity_formula converter_name converters_data threshold
    info converter_id S :
  find_converter converter_name converters_data = Some info ->
  currency_id info = Some converter_id ->
  converter_id <> "" ->
  supply info = Some S ->
  0 < S ->
  threshold <= S ->
  0 < native_ratio_of converter_name converter_id (info_source_chain info) ->
  0 < native_usd_price_of (info_source_chain info) ->
  get_converter_liquidity converter_name converters_data threshold =
  S * native_ratio_of converter_name converter_id (info_source_chain info)
    * native_usd_price_of (info_source_chain info).
Proof.
  intros Hfind Hid Hne HS Hpos Hthr H1 H2.
  unfold Liquidity.get_converter_liquidity. rewrite Hfind, HS, Hid. simpl.
  apply String.eqb_neq in Hne. rewrite Hne. simpl.
  apply py_le_false in Hpos, H1, H2. apply py_lt_false in Hthr.
  by rewrite Hpos, H1, H2, Hthr.
Qed.

Lemma get_converter_liquidity_below_floor converter_name converters_data threshold
    info S :
  find_converter converter_name converters_data = Some info ->
  supply info = Some S ->
  S < threshold ->
  get_converter_liquidity converter_name converters_data threshold = 0.
Proof.
  intros Hfind HS Hlt.
  unfold Liquidity.get_converter_liquidity. rewrite Hfind, HS.
  apply py_lt_spec in Hlt. rewrite Hlt.
  by repeat match goal with |- context [if ?b then _ else _] => destruct b end.
Qed.

(** [get_pair_liquidity] in terms of the three weights. *)
Lemma get_pair_liquidity_weights converter_name base target converters_data info :
  find_converter converter_name converters_data = Some info ->
  let L := get_converter_liquidity converter_name converters_data 1000 in
  let W := total_weight_of info in
  let wa := base_weight_of info base target in
  let wb := target_weight_of info base target in
  let w := non_converter_weight_of info converter_name base target in
  get_pair_liquidity converter_name base target converters_data =
  if py_le L 0 then 0
  else if String.eqb base converter_name || String.eqb target converter_name then
    if py_gt w 0 && py_gt W 0 then (w / W * L) * 2 else 0
  else
    if py_gt wa 0 && py_gt wb 0 && py_gt W 0 then (wa + wb) / W * L else 0.
Proof.
  intros Hfind. simpl.
  unfold Liquidity.get_pair_liquidity. rewrite Hfind.
  unfold non_converter_weight_of, base_weight_of, target_weight_of, total_weight_of.
  rewrite (weights_loop_total _ "" "" 0 0 0 base target 0 0).
  by destruct (weights_loop _ _ _ _ _ _) as [[bw tw] W].
Qed.

End World.



Import Samples.



Lemma C3_failed_hop_zero_liquidity_witness :
  get_converter_liquidity no_usd_daemon "Bridge.vETH" [veth_info] 1000 = 0.
Proof.
  apply (C3_failed_hop_zero_liquidity no_usd_daemon "Bridge.vETH" [veth_info] 1000
           veth_info).
  - reflexivity.
  - right. vm_compute. exact I.
Defined.


(** A basket pair of the same converter: twice the 25% slice. *)
Example veth_basket_pair_liquidity :
  get_pair_liquidity veth_daemon "Bridge.vETH" "Bridge.vETH" "VRSC" [veth_info]
  == 11736892.8366.
Proof. vm_compute. reflexivity. Qed.

End LiquidityFacts.

(** ** Pair extraction *)

Module DataIntegrationFacts.
Import DataIntegration.

Section World.

Variable current_block : Z.
Variable blocks_per_day_of : string -> Z.
Variable rpc_getinfo : string -> rpc_outcome getinfo_result.
Variable rpc_getcurrencystate :
  string -> string -> Z * Z * Z -> string -> rpc_outcome (list state_item).
Variable apply_universal_price_inversion : pair_data -> pair_data.
Variable make_rpc_call : string -> Liquidity.conversion_params -> Liquidity.estimate_reply.

Local Abbreviation all_volume_data_of :=
  (all_volume_data_of current_block blocks_per_day_of rpc_getinfo rpc_getcurrencystate).
Local Abbreviation pair_record := (pair_record make_rpc_call).
Local Abbreviation pairs_of_converter :=
  (pairs_of_converter current_block blocks_per_day_of rpc_getinfo rpc_getcurrencystate
     apply_universal_price_inversion make_rpc_call).
Local Abbreviation extract_loop :=
  (extract_loop current_block blocks_per_day_of rpc_getinfo rpc_getcurrencystate
     apply_universal_price_inversion make_rpc_call).
Local Abbreviation extract_all_pairs_data :=
  (extract_all_pairs_data current_block blocks_per_day_of rpc_getinfo rpc_getcurrencystate
     apply_universal_price_inversion make_rpc_call).

(** Where a record appended for one converter comes from. *)
Lemma elem_of_pairs_of_converter converters converter ps p :
  pairs_of_converter converters converter = Some ps ->
  p ∈ ps ->
  exists converter_name all_volume_data base target,
    name converter = Some converter_name /\
    all_volume_data_of converter_name (get_chain_for_converter converter_name)
      (get_converter_currencies converter) = Some all_volume_data /\
    base <> target /\
    let pd := pair_record converters converter_name
                (get_converter_currencies converter) all_volume_data base target in
    p = apply_universal_price_inversion pd /\
    py_gt (base_volume pd) 0 || py_gt (target_volume pd) 0 = true.
Proof.
  unfold DataIntegration.pairs_of_converter.
  destruct (name converter) as [converter_name|]; [|done].
  destruct (length _ <? 2)%nat.
  { intros [= <-] Hp. by apply elem_of_nil in Hp. }
  destruct (all_volume_data_of _ _ _) as [all_volume_data|] eqn:Hdata; [|done].
  intros [= <-] Hp.
  apply list_elem_of_In, in_flat_map in Hp as (base & _ & Hp).
  apply in_flat_map in Hp as (target & _ & Hp).
  destruct (String.eqb base target) eqn:Hbt; [destruct Hp|].
  apply String.eqb_neq in Hbt.
  exists converter_name, all_volume_data, base, target.
  split; [done|]. split; [done|]. split; [done|]. simpl.
  destruct (py_gt _ 0 || py_gt _ 0) eqn:Hvol; [|destruct Hp].
  destruct Hp as [<-|[]]. by split.
Qed.

Lemma elem_of_extract_loop converters todo acc all_pairs p :
  extract_loop converters todo acc = Some all_pairs ->
  p ∈ all_pairs ->
  p ∈ acc \/
  exists converter ps,
    converter ∈ todo /\ pairs_of_converter converters converter = Some ps /\ p ∈ ps.
Proof.
  revert acc. induction todo as [|c todo IH]; intros acc; simpl.
  - intros [= <-] Hp. by left.
  - destruct (pairs_of_converter converters c) as [ps|] eqn:Hc; [|done].
    intros Hloop Hp. destruct (IH _ Hloop Hp) as [Hacc | (c' & ps' & Hin & Hps & Hp')].
    + apply elem_of_app in Hacc as [Hacc|Hnew]; [by left|].
      right. exists c, ps. split; [by left|]. done.
    + right. exists c', ps'. split; [by right|]. done.
Qed.

(** C8.  Every record of the extracted pair list is the inversion of the
    record built for some converter and some ordered combination of two
    of its currencies whose base-lens volume or target-lens volume is
    positive; a combination with both volumes zero is not in the list. *)
Theorem C8_pair_needs_volume (converters : list converter_info) (p : pair_data) :
  p ∈ pairs (extract_all_pairs_data converters) ->
  exists converter converter_name all_volume_data base target,
    converter ∈ converters /\
    name converter = Some converter_name /\
    all_volume_data_of converter_name (get_chain_for_converter converter_name)
      (get_converter_currencies converter) = Some all_volume_data /\
    base <> target /\
    let base_lens_volume := lens_volume all_volume_data base base target in
    let target_lens_volume := lens_volume all_volume_data target base target in
    p = apply_universal_price_inversion
          (pair_record converters converter_name
             (get_converter_currencies converter) all_volume_data base target) /\
    (0 < base_lens_volume \/ 0 < target_lens_volume) /\
    ~ (base_lens_volume == 0 /\ target_lens_volume == 0).
Proof.
  unfold DataIntegration.extract_all_pairs_data.
  destruct converters as [|c0 cs] eqn:Hcs; [by intros ?%elem_of_nil|].
  rewrite <- Hcs. clear Hcs.
  destruct (extract_loop converters converters []) as [all_pairs|] eqn:Hloop;
    [|by intros ?%elem_of_nil].
  simpl. intros Hp.
  destruct (elem_of_extract_loop _ _ _ _ _ Hloop Hp)
    as [?%elem_of_nil | (converter & ps & Hin & Hps & Hp')]; [done|].
  destruct (elem_of_pairs_of_converter _ _ _ _ Hps Hp')
    as (converter_name & all_volume_data & base & target
        & Hname & Hdata & Hbt & Heq & Hvol).
  exists converter, converter_name, all_volume_data, base, target.
  split; [done|]. split; [done|]. split; [done|]. split; [done|]. simpl.
  split; [exact Heq|].
  simpl in Hvol. apply orb_true_iff in Hvol.
  assert (Hpos : 0 < lens_volume all_volume_data base base target \/
                 0 < lens_volume all_volume_data target base target).
  { destruct Hvol as [H|H]; apply py_lt_spec in H; [by left|by right]. }
  split; [exact Hpos|].
  intros [Hb Ht]. destruct Hpos as [H|H].
  - rewrite Hb in H. by apply Qlt_irrefl in H.
  - rewrite Ht in H. by apply Qlt_irrefl in H.
Qed.

End World.

Import Samples.

(** On the sample, of the twenty ordered combinations of the five
    currencies of [Bridge.vETH] only [VRSC -> DAI.vETH] has volume, and
    only it is in the list. *)
Example veth_extraction_pairs :
  List.map (fun p => (pair_symbol p, base_volume p, target_volume p))
    (pairs veth_extraction) =
  [("VRSC-DAI.vETH", 1200, 2580)].
Proof. vm_compute. reflexivity. Qed.

Lemma C8_pair_needs_volume_witness :
  exists p, p ∈ pairs veth_extraction /\
    exists all_volume_data base target,
      base <> target /\
      (0 < lens_volume all_volume_data base base target \/
       0 < lens_volume all_volume_data target base target).
Proof.
  assert (Hne : pairs veth_extraction <> []) by (vm_compute; discriminate).
  destruct (pairs veth_extraction) as [|p l] eqn:Hp; [done|].
  exists p. split; [by left|].
  destruct (C8_pair_needs_volume 3500000 blocks_per_day_1440 vrsc_getinfo
              veth_getcurrencystate no_inversion veth_daemon [veth_info] p)
    as (converter & converter_name & all_volume_data & base & target
        & _ & _ & _ & H3 & _ & H5 & _).
  - unfold veth_extraction in Hp. rewrite Hp. by left.
  - exists all_volume_data, base, target. done.
Defined.

End DataIntegrationFacts.

(** ** I-address aggregation *)

Module TickerFormattingFacts.
Import TickerFormatting.

Lemma round_half_even_comp x y : x == y -> round_half_even x = round_half_even y.
Proof.
  intros H. unfold round_half_even.
  rewrite (Qfloor_comp _ _ H).
  assert (Hc : Qcompare (x - inject_Z (Qfloor y)) (1 # 2) =
               Qcompare (y - inject_Z (Qfloor y)) (1 # 2)).
  { apply Qcompare_comp; [by rewrite H | reflexivity]. }
  by rewrite Hc.
Qed.

Lemma format8_comp x y : x == y -> format8 x = format8 y.
Proof. intros H. apply round_half_even_comp. by rewrite H. Qed.

(** A contributor with positive base volume and a new key. *)
Lemma aggregate_step_first agg pd :
  0 < DataIntegration.base_volume pd ->
  agg !! pair_key_of pd = None ->
  aggregate_step agg pd =
  <[pair_key_of pd :=
      {| base_id := DataIntegration.base_currency_id pd;
         base_name := DataIntegration.base_currency pd;
         base_symbol := DataIntegration.base_currency pd;
         quote_id := DataIntegration.target_currency_id pd;
         quote_name := DataIntegration.target_currency pd;
         quote_symbol := DataIntegration.target_currency pd;
         last_price := format8 (DataIntegration.last pd);
         base_volume := format8 (DataIntegration.base_volume pd);
         quote_volume := format8 (DataIntegration.target_volume pd) |}]> agg.
Proof.
  intros Hb Hnone. unfold aggregate_step.
  apply py_le_false in Hb. by rewrite Hb, Hnone.
Qed.

(** A contributor with positive base volume and a key seen before. *)
Lemma aggregate_step_again agg pd existing :
  0 < DataIntegration.base_volume pd ->
  agg !! pair_key_of pd = Some existing ->
  let w1 := float_of_format8 (quote_volume existing) in
  let w2 := DataIntegration.target_volume pd in
  aggregate_step agg pd =
  <[pair_key_of pd :=
      update_ticker existing
        (format8 (if py_gt (w1 + w2) 0
                  then (float_of_format8 (last_price existing) * w1
                        + DataIntegration.last pd * w2) / (w1 + w2)
                  else DataIntegration.last pd))
        (format8 (float_of_format8 (base_volume existing)
                  + DataIntegration.base_volume pd))
        (format8 (w1 + w2))]> agg.
Proof.
  intros Hb Hsome. unfold aggregate_step.
  apply py_le_false in Hb. by rewrite Hb, Hsome.
Qed.

(** A contributor without base volume is skipped. *)
Lemma aggregate_step_skip agg pd :
  DataIntegration.base_volume pd <= 0 -> aggregate_step agg pd = agg.
Proof.
  intros Hb. unfold aggregate_step. apply py_le_spec in Hb. by rewrite Hb.
Qed.

Import Samples.




End TickerFormattingFacts.

(** ** Converter discovery: further invariants *)

Module DiscoveryInvariants.
Import Discovery.

(** A converter whose name does not mark it as a bridge. *)
Lemma kept_on_chain_native X c :
  startswith (default "" (fullyqualifiedname c)) "Bridge." = false ->
  kept_on_chain X c = true.
Proof. unfold kept_on_chain. by intros ->. Qed.

Lemma kept_on_two_chains X Y c :
  X <> Y ->
  kept_on_chain X c && kept_on_chain Y c =
  negb (startswith (default "" (fullyqualifiedname c)) "Bridge.").
Proof.
  intros Hne. unfold kept_on_chain.
  destruct (startswith _ _); [|done]. simpl.
  destruct (bridge_converter_chains !! _) as [Z|].
  - destruct (decide (Z = X)) as [->|HX].
    + rewrite (bool_decide_eq_false_2 (Some X = Some Y)) by congruence.
      apply andb_false_r.
    + by rewrite (bool_decide_eq_false_2 (Some Z = Some X)) by congruence.
  - by rewrite bool_decide_eq_false_2 by done.
Qed.

Lemma filter_filter {A : Type} (f g : A -> bool) (l : list A) :
  List.filter f (List.filter g l) = List.filter (fun x => g x && f x) l.
Proof.
  induction l as [|a l IH]; simpl; [done|].
  destruct (g a); simpl; [destruct (f a)|]; by rewrite IH.
Qed.

Lemma filter_sublist {A : Type} (f : A -> bool) (l : list A) :
  sublist (List.filter f l) l.
Proof.
  induction l as [|a l IH]; simpl; [constructor|].
  destruct (f a); by constructor.
Qed.

(** Converters that are not bridges pass the bridge filter of every
    chain, each as often as it is reported and in the order reported. *)
Theorem native_converters_always_retained (l : list converter) (X : string) :
  let native c := negb (startswith (default "" (fullyqualifiedname c)) "Bridge.") in
  List.filter native (filter_bridge_converters_by_chain l X) = List.filter native l /\
  (forall c, c ∈ l -> native c = true -> c ∈ filter_bridge_converters_by_chain l X).
Proof.
  intros native. rewrite DiscoveryFacts.filter_bridge_converters_by_chain_filter.
  split.
  - rewrite filter_filter. apply filter_ext. intros c. unfold native.
    destruct (startswith _ _) eqn:Hs; simpl; [apply andb_false_r|].
    by rewrite (kept_on_chain_native X c Hs).
  - intros c Hc Hn. apply list_elem_of_In, filter_In. split; [by apply list_elem_of_In|].
    apply kept_on_chain_native. unfold native in Hn. by destruct (startswith _ _).
Qed.


Section World.

Variable make_rpc_call : string -> string -> converters_reply.
Variable getenv : string -> option string.
Variable float_of_string : string -> option Q.
Variable get_ticker_by_id : string -> string.
Variable get_session_block_height : Z.

Local Abbreviation chain_yield := (chain_yield make_rpc_call).
Local Abbreviation chain_report := (chain_report make_rpc_call).
Local Abbreviation chain_record := (chain_record make_rpc_call).
Local Abbreviation merged_converters := (merged_converters make_rpc_call).
Local Abbreviation filter_converters_by_native_holdings :=
  (filter_converters_by_native_holdings getenv float_of_string).
Local Abbreviation holdings_loop := (holdings_loop getenv float_of_string).
Local Abbreviation meets_minimum := (meets_minimum getenv float_of_string).
Local Abbreviation extract_converter_info := (extract_converter_info get_ticker_by_id).
Local Abbreviation discover_active_converters :=
  (discover_active_converters make_rpc_call getenv float_of_string
     get_ticker_by_id get_session_block_height).

Lemma filter_complement_permutation {A : Type} (f g : A -> bool) (l : list A) :
  (forall x, x ∈ l -> g x = negb (f x)) ->
  List.filter f l ++ List.filter g l ≡ₚ l.
Proof.
  induction l as [|a l IH]; intros H; simpl; [done|].
  assert (Hl : forall x, x ∈ l -> g x = negb (f x)) by (intros x Hx; apply H; by right).
  rewrite (H a) by (by left). destruct (f a); simpl.
  - by rewrite IH.
  - rewrite <- Permutation_middle. by rewrite IH.
Qed.

Lemma holdings_filter_lengths (converters_data : list converter) :
  let r := filter_converters_by_native_holdings converters_data in
  (length r.1 + length r.2)%nat = length converters_data.
Proof.
  unfold Discovery.filter_converters_by_native_holdings.
  destruct (decide (Forall (fun c => is_Some (meets_minimum c)) converters_data))
    as [Hall|Hex].
  - rewrite Forall_forall in Hall.
    rewrite DiscoveryFacts.holdings_loop_ok by done. simpl.
    rewrite <- length_app. apply Permutation_length, filter_complement_permutation.
    intros c Hc. destruct (Hall c Hc) as [[|] ->]; reflexivity.
  - apply not_Forall_Exists, Exists_exists in Hex as (c & Hc & Hnone); [|apply _].
    rewrite DiscoveryFacts.holdings_loop_raises.
    + simpl. lia.
    + exists c. split; [done|].
      destruct (meets_minimum c) eqn:E; [|done]. destruct Hnone. simpl. by rewrite E.
Qed.

(** On either path the holdings filter only sorts its input into two
    lists: nothing is lost, added or duplicated, and each list keeps the
    order of the input. *)
Theorem holdings_filter_partition (converters_data : list converter) :
  let r := filter_converters_by_native_holdings converters_data in
  r.1 ++ r.2 ≡ₚ converters_data /\
  sublist r.1 converters_data /\
  sublist r.2 converters_data.
Proof.
  unfold Discovery.filter_converters_by_native_holdings.
  destruct (decide (Forall (fun c => is_Some (meets_minimum c)) converters_data))
    as [Hall|Hex].
  - rewrite Forall_forall in Hall.
    rewrite DiscoveryFacts.holdings_loop_ok by done. simpl.
    split; [|split; apply filter_sublist].
    apply filter_complement_permutation. intros c Hc.
    destruct (Hall c Hc) as [[|] ->]; reflexivity.
  - apply not_Forall_Exists, Exists_exists in Hex as (c & Hc & Hnone); [|apply _].
    rewrite DiscoveryFacts.holdings_loop_raises.
    + simpl. rewrite List.app_nil_r. split; [done|]. split; [done|]. apply sublist_nil_l.
    + exists c. split; [done|].
      destruct (meets_minimum c) eqn:E; [|done]. destruct Hnone. simpl. by rewrite E.
Qed.

Lemma chain_yield_length X :
  (length (chain_yield X) <= length (chain_report X))%nat.
Proof.
  rewrite DiscoveryFacts.chain_yield_report, length_map,
    DiscoveryFacts.filter_bridge_converters_by_chain_filter.
  apply sublist_length, filter_sublist.
Qed.

(** Every entry of the per-chain breakdown belongs to a chain that was
    asked for, counts the converters it lists, accounts for every
    converter the scan found as either kept or filtered, and lists only
    converters tagged with that chain; chains not asked for have no
    entry. *)
Theorem chain_record_accounts (cs : list string) (X : string) :
  let r := discover_active_converters (Some cs) in
  match chains r !! X with
  | Some rec =>
      X ∈ cs /\
      count rec = length (converters rec) /\
      (count rec + bridge_filtered rec)%nat = total_found rec /\
      total_found rec = length (chain_report X) /\
      (forall c, c ∈ converters rec -> source_chain c = Some X)
  | None => X ∉ cs
  end.
Proof.
  simpl. rewrite DiscoveryFacts.lookup_discovery_chains.
  case_bool_decide as Hin; [|done].
  split; [done|].
  rewrite DiscoveryFacts.chain_record_count, DiscoveryFacts.chain_record_converters.
  split; [done|].
  pose proof (chain_yield_length X) as Hlen.
  assert (Hrec : total_found (chain_record X) = length (chain_report X) /\
                 bridge_filtered (chain_record X) =
                 (length (chain_report X) - length (chain_yield X))%nat).
  { unfold Discovery.chain_record, Discovery.chain_report, Discovery.chain_yield.
    destruct (get_all_converters _ _ _) as [[|c l]|]; done. }
  destruct Hrec as [-> ->].
  split; [lia|]. split; [done|].
  intros c (c0 & -> & _)%DiscoveryFacts.elem_of_chain_yield. done.
Qed.

Lemma length_concat_yields cs :
  length (merged_converters cs) =
  sum_list (List.map (fun X => count (chain_record X)) cs).
Proof.
  rewrite DiscoveryFacts.merged_converters_concat.
  induction cs as [|X cs IH]; simpl; [done|].
  by rewrite length_app, IH, DiscoveryFacts.chain_record_count.
Qed.

(** The counts of the result add up: every converter found is either
    active or excluded, and the total is the sum of the per-chain counts
    over the chains asked for. *)
Theorem discovery_counts_add_up (cs : list string) :
  let r := discover_active_converters (Some cs) in
  active_count r = length (active_converters r) /\
  excluded_count r = length (excluded_converters r) /\
  total_count r = (active_count r + excluded_count r)%nat /\
  total_count r =
  sum_list (List.map (fun X => from_option count 0%nat (chains r !! X)) cs).
Proof.
  intros r.
  assert (Hsum : total_count r =
    sum_list (List.map (fun X => from_option count 0%nat (chains r !! X)) cs)).
  { destruct (DiscoveryFacts.discover_result_spec make_rpc_call getenv float_of_string
                get_ticker_by_id get_session_block_height cs) as (_ & _ & _ & _ & Htot).
    fold r in Htot. rewrite Htot, length_concat_yields.
    f_equal. apply map_ext_in. intros X HX%list_elem_of_In.
    subst r. by rewrite DiscoveryFacts.lookup_discovery_chains, bool_decide_eq_true_2. }
  split; [|split; [|split; [|exact Hsum]]].
  - unfold r, Discovery.discover_active_converters. simpl.
    destruct (discover_loop _ _ _ _) as [[|c0 l0] results]; [done|].
    by destruct (filter_converters_by_native_holdings _).
  - unfold r, Discovery.discover_active_converters. simpl.
    destruct (discover_loop _ _ _ _) as [[|c0 l0] results]; [done|].
    by destruct (filter_converters_by_native_holdings _).
  - unfold r, Discovery.discover_active_converters. simpl.
    destruct (discover_loop _ _ _ _) as [[|c0 l0] results]; [done|].
    pose proof (holdings_filter_lengths (c0 :: l0)) as Hlen.
    destruct (filter_converters_by_native_holdings (c0 :: l0)) as [inc exc].
    simpl in *. rewrite !length_map. lia.
Qed.


End World.


End DiscoveryInvariants.

(** ** Liquidity calculator: bounds and symmetry *)

Module LiquidityBounds.
Import Liquidity.

(** The weight [get_pair_liquidity] reads for a ticker: that of the last
    reserve carrying it, [0] when there is none. *)
Lemma weight_independent_of_other_side i a b b' :
  base_weight_of i a b = base_weight_of i a b' /\
  target_weight_of i b a = base_weight_of i a b.
Proof.
  by rewrite !LiquidityFacts.base_weight_of_last, LiquidityFacts.target_weight_of_last.
Qed.

Lemma weights_loop_bound l b t bw tw W :
  b <> t ->
  (forall rc, rc ∈ l -> 0 <= weight rc) ->
  0 <= bw -> 0 <= tw -> bw + tw <= W ->
  0 <= (weights_loop l b t bw tw W).1.1 /\
  0 <= (weights_loop l b t bw tw W).1.2 /\
  (weights_loop l b t bw tw W).1.1 + (weights_loop l b t bw tw W).1.2
  <= (weights_loop l b t bw tw W).2.
Proof.
  intros Hbt. revert bw tw W.
  induction l as [|rc l IH]; intros bw tw W Hpos Hb Ht Hsum; simpl; [done|].
  assert (Hw : 0 <= weight rc) by (apply Hpos; by left).
  assert (Hl : forall rc', rc' ∈ l -> 0 <= weight rc') by (intros ? ?; apply Hpos; by right).
  destruct (String.eqb (ticker rc) b) eqn:Eb; destruct (String.eqb (ticker rc) t) eqn:Et.
  - apply String.eqb_eq in Eb, Et. congruence.
  - apply IH; [done|done|done|lra].
  - apply IH; [done|done|done|lra].
  - apply IH; [done|done|done|lra].
Qed.

Section World.

Variable make_rpc_call : string -> conversion_params -> estimate_reply.

Local Abbreviation get_converter_liquidity := (get_converter_liquidity make_rpc_call).
Local Abbreviation get_pair_liquidity := (get_pair_liquidity make_rpc_call).
Local Abbreviation get_chain_usd_price := (get_chain_usd_price make_rpc_call).

Lemma get_pair_liquidity_not_found converter_name base target converters_data :
  find_converter converter_name converters_data = None ->
  get_pair_liquidity converter_name base target converters_data = 0.
Proof.
  intros Hfind. unfold Liquidity.get_pair_liquidity. rewrite Hfind.
  by destruct (py_le _ 0).
Qed.

(** Whatever the daemon answers and whatever the weights are, no price and
    no liquidity comes out negative. *)
Theorem liquidity_never_negative
    (converter_name base target chain : string)
    (converters_data : list converter_info) (threshold : Q) :
  0 <= get_chain_usd_price chain /\
  0 <= get_converter_liquidity converter_name converters_data threshold /\
  0 <= get_pair_liquidity converter_name base target converters_data.
Proof.
  split; [apply LiquidityFacts.get_chain_usd_price_nonneg|].
  split; [apply LiquidityFacts.get_converter_liquidity_nonneg|].
  destruct (find_converter converter_name converters_data) as [info|] eqn:Hfind.
  2:{ rewrite get_pair_liquidity_not_found by done. lra. }
  rewrite (LiquidityFacts.get_pair_liquidity_weights make_rpc_call _ _ _ _ _ Hfind).
  simpl.
  destruct (py_le _ 0) eqn:HL; [lra|]. apply py_le_false in HL.
  destruct (_ || _).
  - destruct (py_gt _ 0 && py_gt _ 0) eqn:Hw; [|lra].
    apply andb_true_iff in Hw as [Hw HW]. apply py_lt_spec in Hw, HW.
    apply Qmult_le_0_compat; [|lra].
    apply Qmult_le_0_compat; [|lra].
    apply Qlt_le_weak, Qlt_shift_div_l; lra.
  - destruct (py_gt _ 0 && py_gt _ 0 && py_gt _ 0) eqn:Hw; [|lra].
    apply andb_true_iff in Hw as [Hw HW]. apply andb_true_iff in Hw as [Ha Hb].
    apply py_lt_spec in Ha, Hb, HW.
    apply Qmult_le_0_compat; [|lra].
    apply Qlt_le_weak, Qlt_shift_div_l; lra.
Qed.

(** Pair liquidity does not depend on which side is called base. *)
Theorem pair_liquidity_symmetric
    (converter_name a b : string) (converters_data : list converter_info) :
  get_pair_liquidity converter_name a b converters_data ==
  get_pair_liquidity converter_name b a converters_data.
Proof.
  destruct (find_converter converter_name converters_data) as [info|] eqn:Hfind.
  2:{ by rewrite !get_pair_liquidity_not_found. }
  rewrite !(LiquidityFacts.get_pair_liquidity_weights make_rpc_call _ _ _ _ _ Hfind).
  simpl. unfold non_converter_weight_of.
  rewrite !LiquidityFacts.base_weight_of_last, !LiquidityFacts.target_weight_of_last.
  destruct (py_le _ 0); [reflexivity|].
  destruct (String.eqb a converter_name) eqn:Ea;
    destruct (String.eqb b converter_name) eqn:Eb; simpl.
  - apply String.eqb_eq in Ea, Eb. subst. reflexivity.
  - reflexivity.
  - reflexivity.
  - set (wa := match List.find (fun rc => String.eqb (ticker rc) a) _ with
               | Some rc => weight rc | None => 0 end).
    set (wb := match List.find (fun rc => String.eqb (ticker rc) b) _ with
               | Some rc => weight rc | None => 0 end).
    rewrite (andb_comm (py_gt wb 0) (py_gt wa 0)).
    destruct (py_gt wa 0 && py_gt wb 0 && py_gt _ 0); [|reflexivity].
    unfold Qdiv. ring.
Qed.

(** With non-negative reserve weights, a pair of two different reserve
    currencies never gets more than the liquidity of the converter, and a
    pair with the basket token never more than twice that. *)
Theorem pair_liquidity_bounded
    (converter_name base target : string)
    (converters_data : list converter_info) (info : converter_info) :
  find_converter converter_name converters_data = Some info ->
  (forall rc, rc ∈ info_reserve_currencies info -> 0 <= weight rc) ->
  base <> target ->
  let L := get_converter_liquidity converter_name converters_data 1000 in
  let P := get_pair_liquidity converter_name base target converters_data in
  (base <> converter_name -> target <> converter_name -> P <= L) /\
  P <= 2 * L.
Proof.
  intros Hfind Hpos Hbt L P.
  pose proof (LiquidityFacts.get_converter_liquidity_nonneg make_rpc_call
                converter_name converters_data 1000) as HL. fold L in HL.
  pose proof (weights_loop_bound (info_reserve_currencies info) base target 0 0 0
                Hbt Hpos ltac:(lra) ltac:(lra) ltac:(lra)) as (Ha & Hb & Hsum).
  rewrite (LiquidityFacts.weights_loop_total _ base target 0 0 0 "" "" 0 0) in Hsum.
  fold (base_weight_of info base target) in Ha, Hsum.
  fold (target_weight_of info base target) in Hb, Hsum.
  fold (total_weight_of info) in Hsum.
  unfold P. rewrite (LiquidityFacts.get_pair_liquidity_weights make_rpc_call _ _ _ _ _ Hfind).
  simpl. fold L.
  set (wa := base_weight_of info base target) in *.
  set (wb := target_weight_of info base target) in *.
  set (W := total_weight_of info) in *.
  assert (Hfrac : forall w, 0 <= w -> w <= W -> 0 < W -> w / W * L <= L).
  { intros w Hw0 HwW HW. rewrite <- (Qmult_1_l L) at 2.
    apply Qmult_le_compat_r; [|done]. apply Qle_shift_div_r; lra. }
  split.
  - intros Hb' Ht'. apply String.eqb_neq in Hb', Ht'. rewrite Hb', Ht'. simpl.
    destruct (py_le L 0); [lra|].
    destruct (py_gt wa 0 && py_gt wb 0 && py_gt W 0) eqn:Hw; [|lra].
    apply andb_true_iff in Hw as [_ HW]. apply py_lt_spec in HW.
    apply Hfrac; lra.
  - destruct (py_le L 0); [lra|].
    destruct (String.eqb base converter_name || String.eqb target converter_name).
    + unfold non_converter_weight_of. fold wa wb.
      destruct (py_gt _ 0 && py_gt W 0) eqn:Hw; [|lra].
      apply andb_true_iff in Hw as [_ HW]. apply py_lt_spec in HW.
      destruct (String.eqb base converter_name).
      * pose proof (Hfrac wb Hb ltac:(lra) HW). lra.
      * pose proof (Hfrac wa Ha ltac:(lra) HW). lra.
    + destruct (py_gt wa 0 && py_gt wb 0 && py_gt W 0) eqn:Hw; [|lra].
      apply andb_true_iff in Hw as [_ HW]. apply py_lt_spec in HW.
      pose proof (Hfrac (wa + wb) ltac:(lra) Hsum HW). lra.
Qed.

(** A converter that is not in the data, has no supply or a supply that
    is not positive, or has no identifier, has liquidity [0] and gives
    every pair liquidity [0], whatever the daemon would answer. *)
Theorem unusable_converter_zero
    (converter_name : string) (converters_data : list converter_info) :
  match find_converter converter_name converters_data with
  | None => True
  | Some info =>
      falsy_str (currency_id info) = true \/
      match supply info with
      | None => True
      | Some supply_value => supply_value <= 0
      end
  end ->
  forall threshold base target,
    get_converter_liquidity converter_name converters_data threshold = 0 /\
    get_pair_liquidity converter_name base target converters_data = 0.
Proof.
  intros H threshold base target.
  assert (HL : forall thr, get_converter_liquidity converter_name converters_data thr = 0).
  { intros thr. unfold Liquidity.get_converter_liquidity.
    destruct (find_converter _ _) as [info|]; [|done].
    destruct (supply info) as [S|]; [|done].
    destruct H as [-> | HS]; [done|].
    apply py_le_spec in HS. rewrite HS. by rewrite orb_true_r. }
  split; [apply HL|].
  unfold Liquidity.get_pair_liquidity. fold get_converter_liquidity. by rewrite HL.
Qed.

(** A pair of two currencies other than the basket token gets liquidity
    [0] as soon as one of them is the ticker of no reserve of the
    converter. *)
Theorem foreign_currency_zero
    (converter_name a b : string)
    (converters_data : list converter_info) (info : converter_info) :
  find_converter converter_name converters_data = Some info ->
  a <> converter_name -> b <> converter_name ->
  (forall rc, rc ∈ info_reserve_currencies info -> ticker rc <> a) ->
  get_pair_liquidity converter_name a b converters_data = 0 /\
  get_pair_liquidity converter_name b a converters_data = 0.
Proof.
  intros Hfind Ha Hb Hforeign.
  assert (Hwa : forall x, base_weight_of info a x = 0).
  { intros x. rewrite LiquidityFacts.base_weight_of_last.
    destruct (List.find _ _) as [rc|] eqn:Hf; [|done].
    apply find_some in Hf as [Hin Heq]. apply String.eqb_eq in Heq.
    destruct (Hforeign rc); [|done].
    apply list_elem_of_In. by apply in_rev. }
  assert (Hwa' : forall x, target_weight_of info x a = 0).
  { intros x. destruct (weight_independent_of_other_side info a x x) as [_ ->]. apply Hwa. }
  apply String.eqb_neq in Ha, Hb.
  rewrite !(LiquidityFacts.get_pair_liquidity_weights make_rpc_call _ _ _ _ _ Hfind).
  simpl. rewrite Ha, Hb, Hwa, Hwa'. simpl.
  split; destruct (py_le _ 0); try done.
  by rewrite andb_false_r.
Qed.

End World.

Lemma pair_liquidity_bounded_witness :
  get_pair_liquidity Samples.veth_daemon "Bridge.vETH" "VRSC" "DAI.vETH" [Samples.veth_info]
  <= get_converter_liquidity Samples.veth_daemon "Bridge.vETH" [Samples.veth_info] 1000.
Proof.
  assert (Hweights : forall rc, rc ∈ info_reserve_currencies Samples.veth_info ->
                       0 <= weight rc).
  { apply Forall_forall. vm_compute. repeat constructor; discriminate. }
  assert (Hne : "VRSC" <> "DAI.vETH") by discriminate.
  destruct (pair_liquidity_bounded Samples.veth_daemon "Bridge.vETH" "VRSC" "DAI.vETH"
              [Samples.veth_info] Samples.veth_info eq_refl Hweights Hne) as [H _].
  apply H; discriminate.
Defined.

Lemma unusable_converter_zero_witness :
  get_converter_liquidity Samples.veth_daemon "Pure" [MoreSamples.drained_info] 1000 = 0 /\
  get_pair_liquidity Samples.veth_daemon "Pure" "VRSC" "Pure" [MoreSamples.drained_info] = 0.
Proof.
  apply (unusable_converter_zero Samples.veth_daemon "Pure" [MoreSamples.drained_info]).
  vm_compute. right. discriminate.
Defined.

Lemma foreign_currency_zero_witness :
  get_pair_liquidity Samples.veth_daemon "Bridge.vETH" "tBTC.vETH" "VRSC"
    [Samples.veth_info] = 0 /\
  get_pair_liquidity Samples.veth_daemon "Bridge.vETH" "VRSC" "tBTC.vETH"
    [Samples.veth_info] = 0.
Proof.
  apply (foreign_currency_zero Samples.veth_daemon "Bridge.vETH" "tBTC.vETH" "VRSC"
           [Samples.veth_info] Samples.veth_info eq_refl); [discriminate|discriminate|].
  apply Forall_forall. vm_compute. repeat constructor; discriminate.
Defined.

End LiquidityBounds.

(** ** Pair extraction: further properties *)

Module ExtractionFacts.
Import DataIntegration.

Lemma bridge_mappings_range n X :
  bridge_mappings !! n = Some X -> X = "CHIPS" \/ X = "VARRR" \/ X = "VDEX".
Proof.
  unfold bridge_mappings. intros H.
  repeat (rewrite lookup_insert in H; case_decide;
          [injection H as <-; tauto|]).
  by rewrite lookup_empty in H.
Qed.

(** Whatever the name, the chain chosen for a converter is one of the four
    supported ones. *)
Theorem get_chain_for_converter_range (converter_name : string) :
  get_chain_for_converter converter_name ∈ ["VRSC"; "CHIPS"; "VARRR"; "VDEX"].
Proof.
  unfold get_chain_for_converter.
  destruct (bridge_mappings !! converter_name) as [X|] eqn:Hb.
  - destruct (bridge_mappings_range _ _ Hb) as [->|[->| ->]]; set_solver.
  - unfold native_mappings. simpl.
    repeat (destruct (endswith converter_name _); [set_solver|]). set_solver.
Qed.

(** The chain the extractor queries for a bridge is the home chain the
    discovery filter assigns to it. *)
Theorem bridge_chain_tables_agree (n Y : string) :
  Discovery.bridge_converter_chains !! n = Some Y ->
  get_chain_for_converter n = Y.
Proof.
  unfold Discovery.bridge_converter_chains. intros H.
  repeat (rewrite lookup_insert in H; case_decide;
          [subst; injection H as <-; vm_compute; reflexivity|]).
  by rewrite lookup_empty in H.
Qed.

Lemma find_pair_volume_find volume_pairs from_currency to_currency :
  find_pair_volume volume_pairs from_currency to_currency =
  match List.find (pair_matches from_currency to_currency) volume_pairs with
  | Some entry => default 0 (vp_volume entry)
  | None => 0
  end.
Proof. by destruct volume_pairs. Qed.

Lemma find_pair_ohlc_find volume_pairs from_currency to_currency :
  find_pair_ohlc volume_pairs from_currency to_currency =
  match List.find (pair_matches from_currency to_currency) volume_pairs with
  | Some entry =>
      {| ohlc_open := default 0 (vp_open entry);
         ohlc_high := default 0 (vp_high entry);
         ohlc_low := default 0 (vp_low entry);
         ohlc_close := default 0 (vp_close entry) |}
  | None => {| ohlc_open := 0; ohlc_high := 0; ohlc_low := 0; ohlc_close := 0 |}
  end.
Proof. by destruct volume_pairs. Qed.

(** Volume and OHLC of a pair are read off the same entry, the first one
    for the pair; without such an entry both are zero. *)
Theorem volume_and_ohlc_same_entry
    (volume_pairs : list volume_pair) (from_currency to_currency : string) :
  match List.find (pair_matches from_currency to_currency) volume_pairs with
  | Some entry =>
      entry ∈ volume_pairs /\
      vp_currency entry = Some from_currency /\
      vp_convertto entry = Some to_currency /\
      find_pair_volume volume_pairs from_currency to_currency =
        default 0 (vp_volume entry) /\
      find_pair_ohlc volume_pairs from_currency to_currency =
        {| ohlc_open := default 0 (vp_open entry);
           ohlc_high := default 0 (vp_high entry);
           ohlc_low := default 0 (vp_low entry);
           ohlc_close := default 0 (vp_close entry) |}
  | None =>
      find_pair_volume volume_pairs from_currency to_currency = 0 /\
      find_pair_ohlc volume_pairs from_currency to_currency =
        {| ohlc_open := 0; ohlc_high := 0; ohlc_low := 0; ohlc_close := 0 |}
  end.
Proof.
  rewrite find_pair_volume_find, find_pair_ohlc_find.
  destruct (List.find _ volume_pairs) as [entry|] eqn:Hf; [|done].
  pose proof (find_some _ _ Hf) as [Hin Hm].
  unfold pair_matches in Hm. apply andb_true_iff in Hm as [H1 H2].
  apply bool_decide_eq_true in H1, H2.
  split; [by apply list_elem_of_In|]. done.
Qed.

Lemma get_currency_id_by_symbol_cons entry l s :
  get_currency_id_by_symbol (entry :: l) s =
  if String.eqb (symbol entry) s then entry_currency_id entry
  else get_currency_id_by_symbol l s.
Proof. unfold get_currency_id_by_symbol. simpl. by destruct (String.eqb _ _). Qed.


Section World.

Variable blocks_per_day_of : string -> Z.
Variable rpc_getinfo : string -> rpc_outcome getinfo_result.
Variable rpc_getcurrencystate :
  string -> string -> Z * Z * Z -> string -> rpc_outcome (list state_item).
Variable apply_universal_price_inversion : pair_data -> pair_data.
Variable make_rpc_call : string -> Liquidity.conversion_params -> Liquidity.estimate_reply.

Local Abbreviation get_currency_volume_info :=
  (get_currency_volume_info blocks_per_day_of rpc_getinfo rpc_getcurrencystate).
Local Abbreviation volume_loop :=
  (volume_loop blocks_per_day_of rpc_getinfo rpc_getcurrencystate).
Local Abbreviation all_volume_data_of cb :=
  (all_volume_data_of cb blocks_per_day_of rpc_getinfo rpc_getcurrencystate).
Local Abbreviation pairs_of_converter cb :=
  (pairs_of_converter cb blocks_per_day_of rpc_getinfo rpc_getcurrencystate
     apply_universal_price_inversion make_rpc_call).
Local Abbreviation extract_loop cb :=
  (extract_loop cb blocks_per_day_of rpc_getinfo rpc_getcurrencystate
     apply_universal_price_inversion make_rpc_call).
Local Abbreviation extract_all_pairs_data cb :=
  (extract_all_pairs_data cb blocks_per_day_of rpc_getinfo rpc_getcurrencystate
     apply_universal_price_inversion make_rpc_call).

Lemma volume_loop_ignores_range n chain s e i s' e' i' currencies data :
  volume_loop n chain s e i currencies data =
  volume_loop n chain s' e' i' currencies data.
Proof.
  revert data. induction currencies as [|c l IH]; intros data; simpl; [done|].
  change (get_currency_volume_info n s e i (symbol c) chain)
    with (get_currency_volume_info n s' e' i' (symbol c) chain).
  destruct (get_currency_volume_info n s' e' i' (symbol c) chain) as [[d|]|];
    [apply IH | apply IH | done].
Qed.

Lemma pairs_of_converter_ignores_height cb cb' converters converter :
  pairs_of_converter cb converters converter =
  pairs_of_converter cb' converters converter.
Proof.
  unfold DataIntegration.pairs_of_converter, DataIntegration.all_volume_data_of.
  destruct (name converter) as [n|]; [|done].
  destruct (length _ <? 2)%nat; [done|].
  erewrite volume_loop_ignores_range. reflexivity.
Qed.

Lemma extract_loop_ignores_height cb cb' converters todo acc :
  extract_loop cb converters todo acc = extract_loop cb' converters todo acc.
Proof.
  revert acc. induction todo as [|c l IH]; intros acc; simpl; [done|].
  rewrite (pairs_of_converter_ignores_height cb cb').
  destruct (pairs_of_converter cb' converters c); [apply IH|done].
Qed.

(** The pinned session height has no influence on what is extracted: the
    volume query works from the height the daemon reports, so two runs
    that differ only in the pinned height return the same pairs, counts
    and error. *)
Theorem extraction_ignores_pinned_height
    (current_block current_block' : Z) (converters : list converter_info) :
  let r := extract_all_pairs_data current_block converters in
  let r' := extract_all_pairs_data current_block' converters in
  pairs r = pairs r' /\ error r = error r' /\
  total_pairs r = total_pairs r' /\ total_converters r = total_converters r'.
Proof.
  unfold DataIntegration.extract_all_pairs_data.
  destruct converters as [|c0 cs]; [done|].
  rewrite (extract_loop_ignores_height current_block current_block').
  by destruct (extract_loop current_block' _ _ _).
Qed.

Section Height.

Variable current_block : Z.

Local Abbreviation pairs_of := (pairs_of_converter current_block).
Local Abbreviation loop := (extract_loop current_block).
Local Abbreviation extract := (extract_all_pairs_data current_block).

Lemma extract_loop_None converters todo acc :
  loop converters todo acc = None <->
  exists c, c ∈ todo /\ pairs_of converters c = None.
Proof.
  revert acc. induction todo as [|c l IH]; intros acc; simpl.
  - split; [done|]. by intros (c & ?%elem_of_nil & _).
  - destruct (pairs_of converters c) as [ps|] eqn:Hc.
    + rewrite IH. split.
      * intros (c' & Hin & Hnone). exists c'. split; [by right|done].
      * intros (c' & [->|Hin]%elem_of_cons & Hnone); [congruence|eauto].
    + split; [|done]. intros _. exists c. split; [by left|done].
Qed.

(** The extraction is all or nothing.  It reports an error exactly when
    there is no converter or the pass over some converter raises, as it
    does for a converter without a name; then the pair list is empty,
    also of the pairs of the converters that went through.  Without an
    error the counts are the lengths of the lists. *)
Theorem extraction_all_or_nothing (converters : list converter_info) :
  let r := extract converters in
  (is_Some (error r) <->
     converters = [] \/ exists c, c ∈ converters /\ pairs_of converters c = None) /\
  (is_Some (error r) -> pairs r = []) /\
  (error r = None ->
     total_pairs r = length (pairs r) /\ total_converters r = length converters) /\
  (forall c, c ∈ converters -> name c = None -> is_Some (error r)).
Proof.
  intros r.
  assert (Hiff : is_Some (error r) <->
     converters = [] \/ exists c, c ∈ converters /\ pairs_of converters c = None).
  { unfold r, DataIntegration.extract_all_pairs_data.
    destruct converters as [|c0 cs];
      [split; [intros _; by left | intros _; simpl; by eexists]|].
    destruct (loop (c0 :: cs) (c0 :: cs) []) as [all|] eqn:Hloop; simpl.
    - split; [by intros [? ?]|]. intros [Heq|Hex]; [done|].
      apply (extract_loop_None (c0 :: cs) (c0 :: cs) []) in Hex. congruence.
    - split; [|by eexists]. intros _. right. by apply (extract_loop_None _ _ []). }
  split; [exact Hiff|]. split; [|split].
  - unfold r, DataIntegration.extract_all_pairs_data.
    destruct converters as [|c0 cs]; [done|].
    destruct (loop _ _ _); simpl; [by intros [? ?]|done].
  - unfold r, DataIntegration.extract_all_pairs_data.
    destruct converters as [|c0 cs]; [done|].
    destruct (loop _ _ _); simpl; [done|done].
  - intros c Hc Hname. apply Hiff. right. exists c. split; [done|].
    unfold DataIntegration.pairs_of_converter. by rewrite Hname.
Qed.

End Height.

End World.

Lemma bridge_chain_tables_agree_witness :
  get_chain_for_converter "Bridge.CHIPS" = "CHIPS".
Proof. apply (bridge_chain_tables_agree "Bridge.CHIPS" "CHIPS"). reflexivity. Defined.

End ExtractionFacts.

(** ** I-address aggregation: formatting and keys *)

Module AggregationFacts.
Import TickerFormatting.

Lemma round_half_even_Z z : round_half_even (inject_Z z) = z.
Proof.
  unfold round_half_even. rewrite Qfloor_Z.
  assert (H : Qcompare (inject_Z z - inject_Z z) (1 # 2) = Lt).
  { apply Qlt_alt.
    assert (E : inject_Z z - inject_Z z == 0) by ring.
    rewrite E. reflexivity. }
  by rewrite H.
Qed.

Lemma float_of_format8_scaled z : float_of_format8 z * 100000000 == inject_Z z.
Proof. unfold float_of_format8. field. Qed.

Lemma format8_float_of_format8 (s : Z) : format8 (float_of_format8 s) = s.
Proof.
  unfold format8.
  rewrite (TickerFormattingFacts.round_half_even_comp _ _ (float_of_format8_scaled s)).
  apply round_half_even_Z.
Qed.

Lemma round_half_even_error y : Qabs (inject_Z (round_half_even y) - y) <= 1 # 2.
Proof.
  unfold round_half_even.
  pose proof (Qfloor_le y) as Hlo. pose proof (Qlt_floor y) as Hhi.
  rewrite inject_Z_plus in Hhi. change (inject_Z 1) with 1 in Hhi.
  set (f := Qfloor y) in *.
  assert (Hup : inject_Z (f + 1) == inject_Z f + 1) by (rewrite inject_Z_plus; reflexivity).
  destruct (Qcompare (y - inject_Z f) (1 # 2)) eqn:Hc.
  - apply Qeq_alt in Hc. destruct (Z.even f); apply Qabs_Qle_condition.
    + split; lra.
    + rewrite Hup. split; lra.
  - apply Qlt_alt in Hc. apply Qabs_Qle_condition. split; lra.
  - apply Qgt_alt in Hc. apply Qabs_Qle_condition. rewrite Hup. split; lra.
Qed.

Lemma format8_within_half_unit (x : Q) :
  Qabs (float_of_format8 (format8 x) - x) <= 1 # 200000000.
Proof.
  unfold format8, float_of_format8.
  pose proof (round_half_even_error (x * 100000000)) as H.
  set (z := inject_Z (round_half_even (x * 100000000))) in *.
  apply Qabs_Qle_condition in H as [H1 H2].
  apply Qabs_Qle_condition.
  assert (Hz : z / 100000000 == z * (1 # 100000000)) by (unfold Qdiv; reflexivity).
  rewrite Hz. split; lra.
Qed.


Lemma eight_decimals_float_of_format8 s : eight_decimals (float_of_format8 s).
Proof. unfold eight_decimals. by rewrite format8_float_of_format8. Qed.

Lemma float_of_format8_plus a b :
  float_of_format8 (a + b) == float_of_format8 a + float_of_format8 b.
Proof. unfold float_of_format8. rewrite inject_Z_plus. field. Qed.

Lemma eight_decimals_plus x y :
  eight_decimals x -> eight_decimals y -> eight_decimals (x + y).
Proof.
  unfold eight_decimals. intros Hx Hy.
  assert (H : x + y == float_of_format8 (format8 x + format8 y)).
  { by rewrite float_of_format8_plus, Hx, Hy. }
  rewrite (TickerFormattingFacts.format8_comp _ _ H), format8_float_of_format8.
  by rewrite H.
Qed.

(** How one pass of the loop changes the entry under a key. *)
Lemma aggregate_step_lookup agg pd k :
  aggregate_step agg pd !! k =
  if bool_decide (pair_key_of pd = k) && py_gt (DataIntegration.base_volume pd) 0 then
    match agg !! k with
    | Some existing =>
        let w1 := float_of_format8 (quote_volume existing) in
        let w2 := DataIntegration.target_volume pd in
        Some (update_ticker existing
                (format8 (if py_gt (w1 + w2) 0
                          then (float_of_format8 (last_price existing) * w1
                                + DataIntegration.last pd * w2) / (w1 + w2)
                          else DataIntegration.last pd))
                (format8 (float_of_format8 (base_volume existing)
                          + DataIntegration.base_volume pd))
                (format8 (w1 + w2)))
    | None =>
        Some {| base_id := DataIntegration.base_currency_id pd;
                base_name := DataIntegration.base_currency pd;
                base_symbol := DataIntegration.base_currency pd;
                quote_id := DataIntegration.target_currency_id pd;
                quote_name := DataIntegration.target_currency pd;
                quote_symbol := DataIntegration.target_currency pd;
                last_price := format8 (DataIntegration.last pd);
                base_volume := format8 (DataIntegration.base_volume pd);
                quote_volume := format8 (DataIntegration.target_volume pd) |}
    end
  else agg !! k.
Proof.
  destruct (py_gt (DataIntegration.base_volume pd) 0) eqn:Hb.
  - apply py_lt_spec in Hb. rewrite andb_true_r.
    destruct (agg !! pair_key_of pd) as [existing|] eqn:Hk.
    + rewrite (TickerFormattingFacts.aggregate_step_again _ _ _ Hb Hk).
      case_bool_decide as Hkey.
      * subst k. by rewrite lookup_insert_eq, Hk.
      * by rewrite lookup_insert_ne.
    + rewrite (TickerFormattingFacts.aggregate_step_first _ _ Hb Hk).
      case_bool_decide as Hkey.
      * subst k. by rewrite lookup_insert_eq, Hk.
      * by rewrite lookup_insert_ne.
  - apply py_lt_false in Hb.
    rewrite (TickerFormattingFacts.aggregate_step_skip _ _ Hb). by rewrite andb_false_r.
Qed.

(** The identity fields of an entry. *)
Lemma foldl_keeps_identity l agg k t0 :
  agg !! k = Some t0 ->
  exists t, foldl aggregate_step agg l !! k = Some t /\
    base_id t = base_id t0 /\ base_name t = base_name t0 /\
    base_symbol t = base_symbol t0 /\ quote_id t = quote_id t0 /\
    quote_name t = quote_name t0 /\ quote_symbol t = quote_symbol t0.
Proof.
  revert agg t0. induction l as [|pd l IH]; intros agg t0 Hk; simpl; [by eexists|].
  pose proof (aggregate_step_lookup agg pd k) as Hstep. rewrite Hk in Hstep.
  destruct (_ && _).
  - destruct (IH _ _ Hstep) as (t & Ht & H). exists t. split; [done|]. exact H.
  - by apply IH.
Qed.

(** An entry exists under a key exactly when some pair with that key has
    positive base volume, whatever its currencies are; the entry carries
    the identifiers and names of the first such pair. *)
Theorem aggregation_keys (pairs_data : list DataIntegration.pair_data) (k : string) :
  match List.find (fun pd => bool_decide (pair_key_of pd = k)
                             && py_gt (DataIntegration.base_volume pd) 0) pairs_data with
  | None => aggregate_pairs_for_iaddress_cmc pairs_data !! k = None
  | Some pd =>
      exists t, aggregate_pairs_for_iaddress_cmc pairs_data !! k = Some t /\
        base_id t = DataIntegration.base_currency_id pd /\
        quote_id t = DataIntegration.target_currency_id pd /\
        base_name t = DataIntegration.base_currency pd /\
        base_symbol t = DataIntegration.base_currency pd /\
        quote_name t = DataIntegration.target_currency pd /\
        quote_symbol t = DataIntegration.target_currency pd
  end.
Proof.
  unfold aggregate_pairs_for_iaddress_cmc.
  assert (H : forall agg, agg !! k = None ->
    match List.find (fun pd => bool_decide (pair_key_of pd = k)
                               && py_gt (DataIntegration.base_volume pd) 0) pairs_data with
    | None => foldl aggregate_step agg pairs_data !! k = None
    | Some pd =>
        exists t, foldl aggregate_step agg pairs_data !! k = Some t /\
          base_id t = DataIntegration.base_currency_id pd /\
          quote_id t = DataIntegration.target_currency_id pd /\
          base_name t = DataIntegration.base_currency pd /\
          base_symbol t = DataIntegration.base_currency pd /\
          quote_name t = DataIntegration.target_currency pd /\
          quote_symbol t = DataIntegration.target_currency pd
    end).
  { induction pairs_data as [|pd l IH]; intros agg Hk; simpl; [done|].
    pose proof (aggregate_step_lookup agg pd k) as Hstep. rewrite Hk in Hstep.
    destruct (_ && _).
    - destruct (foldl_keeps_identity l _ k _ Hstep) as (t & Ht & H1 & H2 & H3 & H4 & H5 & H6).
      exists t. simpl in *. by repeat split.
    - by apply IH. }
  apply H, lookup_empty.
Qed.

(** The running totals of an entry while pairs with its key are added. *)
Lemma foldl_sums l agg k t0 :
  agg !! k = Some t0 ->
  (forall pd, pd ∈ l ->
     pair_key_of pd = k /\ 0 < DataIntegration.base_volume pd /\
     eight_decimals (DataIntegration.base_volume pd) /\
     eight_decimals (DataIntegration.target_volume pd)) ->
  exists t, foldl aggregate_step agg l !! k = Some t /\
    float_of_format8 (base_volume t) ==
      float_of_format8 (base_volume t0)
      + fold_right Qplus 0 (List.map DataIntegration.base_volume l) /\
    float_of_format8 (quote_volume t) ==
      float_of_format8 (quote_volume t0)
      + fold_right Qplus 0 (List.map DataIntegration.target_volume l).
Proof.
  revert agg t0. induction l as [|pd l IH]; intros agg t0 Hk Hall; simpl.
  - exists t0. split; [done|]. split; ring.
  - destruct (Hall pd) as (Hkey & Hb & Hb8 & Ht8); [by left|].
    assert (Hl : forall pd', pd' ∈ l ->
       pair_key_of pd' = k /\ 0 < DataIntegration.base_volume pd' /\
       eight_decimals (DataIntegration.base_volume pd') /\
       eight_decimals (DataIntegration.target_volume pd'))
      by (intros ? ?; apply Hall; by right).
    pose proof (aggregate_step_lookup agg pd k) as Hstep. rewrite Hk in Hstep.
    rewrite (bool_decide_eq_true_2 _ Hkey) in Hstep.
    apply py_lt_spec in Hb. unfold py_gt in Hstep. rewrite Hb in Hstep. simpl in Hstep.
    destruct (IH _ _ Hstep Hl) as (t & Ht & HB & HQ). exists t. split; [done|].
    simpl in HB, HQ.
    pose proof (eight_decimals_plus _ _ (eight_decimals_float_of_format8 (base_volume t0)) Hb8) as E1.
    pose proof (eight_decimals_plus _ _ (eight_decimals_float_of_format8 (quote_volume t0)) Ht8) as E2.
    unfold eight_decimals in E1, E2.
    split.
    + rewrite HB, E1. ring.
    + rewrite HQ, E2. ring.
Qed.



End AggregationFacts.

(** ** Currency mapping, CoinGecko tickers, locked supply *)

Module MappingFacts.
Import Dict.

Section Mapping.

Variable currency_contract_mapping : list (string * contract_info).

Local Abbreviation mapping_get := (mapping_get currency_contract_mapping).
Local Abbreviation usable_entry := (usable_entry currency_contract_mapping).
Local Abbreviation get_currency_id_by_name :=
  (get_currency_id_by_name currency_contract_mapping).
Local Abbreviation get_mapped_vrsc_symbol :=
  (get_mapped_vrsc_symbol currency_contract_mapping).
Local Abbreviation get_ticker_by_id := (get_ticker_by_id currency_contract_mapping).

Lemma mapping_get_elem (m : list (string * contract_info)) k v :
  NoDup (List.map fst m) -> (k, v) ∈ m -> Dict.mapping_get m k = Some v.
Proof.
  unfold Dict.mapping_get.
  induction m as [|[k' v'] m IH]; intros Hnd Hin; [by apply elem_of_nil in Hin|].
  simpl in *. apply NoDup_cons in Hnd as [Hk' Hnd].
  apply elem_of_cons in Hin as [[= <- <-]|Hin].
  - by rewrite String.eqb_refl.
  - destruct (String.eqb k' k) eqn:E; [|by apply IH].
    apply String.eqb_eq in E. subst k'. destruct Hk'.
    apply list_elem_of_In, in_map_iff. exists (k, v). by rewrite <- list_elem_of_In.
Qed.

(** Name and identifier go back and forth: the identifier found for a
    name has that name as its symbol and ticker, and a symbol read for an
    identifier is a name under which some identifier is found. *)
Theorem name_id_round_trip (currency_name currency_id : string) :
  NoDup (List.map fst currency_contract_mapping) ->
  (get_currency_id_by_name currency_name = Some currency_id ->
   get_mapped_vrsc_symbol currency_id = Some currency_name /\
   get_ticker_by_id currency_id = Some currency_name) /\
  (get_mapped_vrsc_symbol currency_id = Some currency_name ->
   exists currency_id',
     get_currency_id_by_name currency_name = Some currency_id' /\
     get_mapped_vrsc_symbol currency_id' = Some currency_name).
Proof.
  intros Hnd.
  assert (Hforth : forall id, get_currency_id_by_name currency_name = Some id ->
            get_mapped_vrsc_symbol id = Some currency_name /\
            get_ticker_by_id id = Some currency_name).
  { intros id. unfold Dict.get_currency_id_by_name.
    destruct (List.find _ _) as [[k v]|] eqn:Hf; [|done].
    intros [= <-]. apply find_some in Hf as [Hin Hsym].
    apply bool_decide_eq_true in Hsym. simpl in *.
    apply list_elem_of_In in Hin.
    unfold Dict.get_mapped_vrsc_symbol, Dict.get_ticker_by_id, Dict.usable_entry.
    rewrite (mapping_get_elem _ _ _ Hnd Hin).
    unfold nonempty. rewrite Hsym. by destruct (address v), (eth_symbol v). }
  split; [apply Hforth|].
  unfold Dict.get_mapped_vrsc_symbol, Dict.usable_entry, Dict.mapping_get.
  destruct (List.find _ _) as [[k v]|] eqn:Hf; [|done]. simpl.
  destruct (nonempty v); [|done]. intros Hsym.
  apply find_some in Hf as [Hin _].
  destruct (List.find (fun kv => bool_decide (vrsc_symbol (snd kv) = Some currency_name))
              currency_contract_mapping) as [[k' v']|] eqn:Hf'.
  - exists k'. assert (Hid : get_currency_id_by_name currency_name = Some k').
    { unfold Dict.get_currency_id_by_name. by rewrite Hf'. }
    split; [done|]. by apply Hforth.
  - pose proof (find_none _ _ Hf' (k, v) Hin) as Hno. simpl in Hno.
    by rewrite bool_decide_eq_true_2 in Hno.
Qed.

End Mapping.

Lemma name_id_round_trip_witness :
  get_mapped_vrsc_symbol MoreSamples.sample_mapping "iGBs4DWztRNvNEJBt4mqHszLxfKTNHTkhM"
  = Some "DAI.vETH" /\
  get_ticker_by_id MoreSamples.sample_mapping "iGBs4DWztRNvNEJBt4mqHszLxfKTNHTkhM"
  = Some "DAI.vETH".
Proof.
  apply (name_id_round_trip MoreSamples.sample_mapping "DAI.vETH"
           "iGBs4DWztRNvNEJBt4mqHszLxfKTNHTkhM").
  - apply (bool_decide_unpack _). vm_compute. exact I.
  - reflexivity.
Defined.

End MappingFacts.

Module CoinGeckoFacts.
Import CoinGecko.

Section World.

Variable currency_contract_mapping : list (string * Dict.contract_info).
Variable load_converter_data : list converter_info.
Variable make_rpc_call : string -> Liquidity.conversion_params -> Liquidity.estimate_reply.

Local Abbreviation format_coingecko_ticker :=
  (format_coingecko_ticker currency_contract_mapping load_converter_data make_rpc_call).
Local Abbreviation coingecko_loop :=
  (coingecko_loop currency_contract_mapping load_converter_data make_rpc_call).
Local Abbreviation generate_coingecko_tickers :=
  (generate_coingecko_tickers currency_contract_mapping load_converter_data make_rpc_call).
Local Abbreviation format_coingecko_response :=
  (format_coingecko_response currency_contract_mapping load_converter_data make_rpc_call).

Lemma coingecko_loop_spec use_cache l tickers n :
  coingecko_loop use_cache l tickers n =
  (tickers ++ List.map (fun p => format_coingecko_ticker p use_cache)
                (List.filter (fun p => negb (touches_converter_currency p)) l),
   (n + length (List.filter touches_converter_currency l))%nat).
Proof.
  revert tickers n. induction l as [|p l IH]; intros tickers n; simpl.
  - by rewrite List.app_nil_r, Nat.add_0_r.
  - destruct (touches_converter_currency p); simpl; rewrite IH; f_equal.
    + lia.
    + by rewrite <- app_assoc.
Qed.

(** No CoinGecko ticker is made from a pair that touches a converter
    currency: the tickers are the formatted pairs whose two identifiers
    are both outside the excluded list, in the order of the input, and
    every pair is either formatted or counted as excluded. *)
Theorem coingecko_excludes_converter_pairs
    (pairs_data : list DataIntegration.pair_data) (use_cache : bool) :
  let tickers := generate_coingecko_tickers pairs_data use_cache in
  tickers = List.map (fun p => format_coingecko_ticker p use_cache)
              (List.filter (fun p => negb (touches_converter_currency p)) pairs_data) /\
  (forall t, t ∈ tickers ->
     exists pair_data,
       (pair_data ∈ pairs_data) /\
       (t = format_coingecko_ticker pair_data use_cache) /\
       (DataIntegration.base_currency_id pair_data ∉ Dict.excluded_currency_ids) /\
       (DataIntegration.target_currency_id pair_data ∉ Dict.excluded_currency_ids)) /\
  (length tickers + snd (coingecko_loop use_cache pairs_data [] 0%nat))%nat
  = length pairs_data /\
  format_coingecko_response pairs_data = generate_coingecko_tickers pairs_data false.
Proof.
  unfold CoinGecko.generate_coingecko_tickers, CoinGecko.format_coingecko_response.
  rewrite !coingecko_loop_spec. simpl. split; [done|]. split; [|split; [|done]].
  - intros t (p & <- & Hp)%list_elem_of_In%in_map_iff.
    apply filter_In in Hp as [Hin Hok]. exists p.
    split; [by apply list_elem_of_In|]. split; [done|].
    unfold touches_converter_currency, Dict.is_converter_currency in Hok.
    apply negb_true_iff, orb_false_iff in Hok as [H1 H2].
    apply bool_decide_eq_false in H1, H2. done.
  - rewrite length_map. induction pairs_data as [|p l IH]; simpl; [done|].
    destruct (touches_converter_currency p); simpl; lia.
Qed.

End World.

End CoinGeckoFacts.

Module SupplyFacts.
Import Supply.

Lemma reserves_loop_spec l total details :
  let r := reserves_loop l total details in
  r.1 == total + fold_right Qplus 0 (List.map vrsc_reserve (drop (length details) r.2)) /\
  take (length details) r.2 = details /\
  (forall d, d ∈ drop (length details) r.2 -> 0 < vrsc_reserve d) /\
  (length r.2 <= length details + length l)%nat.
Proof.
  revert total details. induction l as [|c l IH]; intros total details; simpl.
  - rewrite drop_all, take_ge by done. simpl. split; [ring|]. split; [done|].
    split; [by intros ? ?%elem_of_nil | lia].
  - destruct (List.find _ _) as [rc|].
    2:{ destruct (IH total details) as (H1 & H2 & H3 & H4).
        split; [done|]. split; [done|]. split; [done|]. lia. }
    destruct (py_gt (reserves rc) 0) eqn:Hpos.
    2:{ destruct (IH total details) as (H1 & H2 & H3 & H4).
        split; [done|]. split; [done|]. split; [done|]. lia. }
    apply py_lt_spec in Hpos.
    set (d := {| detail_converter := name c; vrsc_reserve := reserves rc;
                 detail_currency_id := rcurrency_id rc; detail_chain := chain c |}).
    destruct (IH (total + reserves rc) (details ++ [d])) as (H1 & H2 & H3 & H4).
    set (r := reserves_loop l (total + reserves rc) (details ++ [d])) in *.
    rewrite length_app in H1, H2, H3, H4. simpl in *.
    assert (Hsplit : drop (length details) r.2 = d :: drop (length details + 1) r.2).
    { rewrite <- (take_drop (length details + 1) r.2) at 1. rewrite H2.
      by rewrite <- app_assoc, drop_app_length. }
    split; [|split; [|split]].
    + rewrite Hsplit. simpl. rewrite H1. ring.
    + rewrite <- (take_drop (length details + 1) r.2). rewrite H2.
      by rewrite <- app_assoc, take_app_length.
    + intros d' Hd'. rewrite Hsplit in Hd'.
      apply elem_of_cons in Hd' as [->|Hd']; [done|by apply H3].
    + lia.
Qed.

Lemma sum_of_positive_reserves (details : list converter_detail) :
  (forall d, d ∈ details -> 0 < vrsc_reserve d) ->
  0 <= fold_right Qplus 0 (List.map vrsc_reserve details).
Proof.
  induction details as [|d ds IH]; simpl; intros Hpos; [lra|].
  assert (0 < vrsc_reserve d) by (apply Hpos; by left).
  assert (0 <= fold_right Qplus 0 (List.map vrsc_reserve ds))
    by (apply IH; intros ? ?; apply Hpos; by right).
  lra.
Qed.

(** The locked total is the sum of the listed reserves; every listed
    reserve is positive, so the total is never negative; a converter is
    listed at most once; and a missing or unreadable discovery file gives
    a total of zero and an empty list. *)
Theorem locked_reserves_add_up (discovery_file : option (list converter_info)) :
  let r := get_vrsc_reserves_from_converters discovery_file in
  r.1 == fold_right Qplus 0 (List.map vrsc_reserve r.2) /\
  (forall d, d ∈ r.2 -> 0 < vrsc_reserve d) /\
  0 <= r.1 /\
  (length r.2 <= length (default [] discovery_file))%nat /\
  (discovery_file = None -> r = (0, [])).
Proof.
  destruct discovery_file as [l|]; simpl.
  2:{ split; [reflexivity|]. split; [by intros ? ?%elem_of_nil|]. done. }
  destruct (reserves_loop_spec l 0 []) as (H1 & _ & H3 & H4). simpl in *.
  rewrite drop_0 in H1, H3.
  pose proof (sum_of_positive_reserves _ H3) as Hsum.
  split; [rewrite H1; ring|]. split; [done|]. split; [rewrite H1; lra|]. done.
Qed.

End SupplyFacts.

(** ** Coinpaprika tickers *)

Module CoinpaprikaFacts.
Import Coinpaprika.

Local Abbreviation by_volume := (fun a b : ticker => (volume b <= volume a)%Z).

Lemma insert_by_volume_perm x l : insert_by_volume x l ≡ₚ x :: l.
Proof.
  induction l as [|y l IH]; simpl; [done|].
  destruct (volume y <? volume x)%Z; [done|].
  rewrite IH. apply Permutation_swap.
Qed.

Lemma insert_by_volume_sorted x l :
  StronglySorted by_volume l -> StronglySorted by_volume (insert_by_volume x l).
Proof.
  induction 1 as [|y l Hs IH Hy]; simpl.
  - repeat constructor.
  - destruct (Z.ltb_spec (volume y) (volume x)).
    + constructor; [by constructor|].
      constructor; [lia|]. eapply Forall_impl; [exact Hy|]. simpl. lia.
    + constructor; [done|].
      rewrite insert_by_volume_perm. by constructor.
Qed.

Lemma filter_none {A} (f : A -> bool) (l : list A) :
  (forall x, In x l -> f x = false) -> List.filter f l = [].
Proof.
  induction l as [|y l IH]; simpl; intros H; [done|].
  rewrite (H y) by by left. apply IH. intros x Hx. apply H. by right.
Qed.

Lemma insert_by_volume_stable v x l :
  StronglySorted by_volume l ->
  List.filter (fun t => (volume t =? v)%Z) (insert_by_volume x l) =
  List.filter (fun t => (volume t =? v)%Z) l ++
  (if (volume x =? v)%Z then [x] else []).
Proof.
  induction 1 as [|y l Hs IH Hy]; simpl; [done|].
  destruct (Z.ltb_spec (volume y) (volume x)); simpl.
  - destruct (Z.eqb_spec (volume x) v) as [Hx|Hx].
    + assert (Hnone : List.filter (fun t => (volume t =? v)%Z) (y :: l) = []).
      { apply filter_none. intros t Ht. apply Z.eqb_neq.
        apply List.in_inv in Ht as [<-|Ht]; [lia|].
        rewrite Forall_forall in Hy. apply list_elem_of_In, Hy in Ht. lia. }
      simpl in Hnone. by rewrite Hnone.
    + by rewrite app_nil_r.
  - rewrite IH. by destruct (volume y =? v)%Z.
Qed.

Lemma sort_loop_spec l acc :
  StronglySorted by_volume acc ->
  let out := fold_left (fun sorted x => insert_by_volume x sorted) l acc in
  StronglySorted by_volume out /\ out ≡ₚ acc ++ l /\
  forall v, List.filter (fun t => (volume t =? v)%Z) out =
            List.filter (fun t => (volume t =? v)%Z) (acc ++ l).
Proof.
  revert acc. induction l as [|x l IH]; intros acc Hacc; simpl.
  - by rewrite app_nil_r.
  - destruct (IH (insert_by_volume x acc) (insert_by_volume_sorted x acc Hacc))
      as (H1 & H2 & H3).
    split; [done|]. split.
    + rewrite H2, insert_by_volume_perm. simpl. apply Permutation_middle.
    + intros v. rewrite H3, !List.filter_app, insert_by_volume_stable by done.
      rewrite <- app_assoc. f_equal. simpl. by destruct (volume x =? v)%Z.
Qed.

Section Mapping.

Variable currency_contract_mapping : list (string * Dict.contract_info).

Local Abbreviation pair_key_of := (pair_key_of currency_contract_mapping).
Local Abbreviation paprika_step := (paprika_step currency_contract_mapping).
Local Abbreviation paprika_aggregation := (paprika_aggregation currency_contract_mapping).
Local Abbreviation generate_coinpaprika_tickers :=
  (generate_coinpaprika_tickers currency_contract_mapping).
Local Abbreviation contributors := (contributors currency_contract_mapping).
Local Abbreviation erc20_base := (fun pd : DataIntegration.pair_data =>
  Dict.get_erc20_symbol currency_contract_mapping
    (DataIntegration.base_currency_id pd) (DataIntegration.base_currency pd)).
Local Abbreviation erc20_target := (fun pd : DataIntegration.pair_data =>
  Dict.get_erc20_symbol currency_contract_mapping
    (DataIntegration.target_currency_id pd) (DataIntegration.target_currency pd)).
Local Abbreviation absorb := (fun (agg : aggregate) (pd : DataIntegration.pair_data) =>
  add_pair (erc20_base pd) (erc20_target pd) pd agg).

(** The tickers come out by volume, largest first; they are the tickers
    of the aggregates, none lost and none added; and tickers of equal
    volume keep the order in which their keys were first met. *)
Theorem paprika_sorted_by_volume (pairs_data : list DataIntegration.pair_data) :
  let final_tickers :=
    omap (fun kv => final_ticker (snd kv)) (paprika_aggregation pairs_data) in
  let out := generate_coinpaprika_tickers pairs_data in
  StronglySorted (fun a b => (volume b <= volume a)%Z) out /\
  out ≡ₚ final_tickers /\
  forall v, List.filter (fun t => (volume t =? v)%Z) out =
            List.filter (fun t => (volume t =? v)%Z) final_tickers.
Proof.
  apply (sort_loop_spec _ []). constructor.
Qed.

Lemma lookup_update_entry m k f k' :
  lookup_entry (update_entry m k f) k' =
  if String.eqb k k' then Some (f (default fresh_aggregate (lookup_entry m k)))
  else lookup_entry m k'.
Proof.
  unfold lookup_entry. induction m as [|[k0 a] m IH]; simpl.
  - by destruct (String.eqb k k').
  - destruct (String.eqb_spec k0 k) as [->|Hk0]; simpl.
    + by destruct (String.eqb_spec k k').
    + destruct (String.eqb_spec k0 k') as [->|Hk0']; simpl.
      * by destruct (String.eqb_spec k k').
      * exact IH.
Qed.

Lemma keys_update_entry m k f :
  NoDup (List.map fst m) -> NoDup (List.map fst (update_entry m k f)) /\
  forall k', k' ∈ List.map fst (update_entry m k f) -> k' = k \/ k' ∈ List.map fst m.
Proof.
  induction m as [|[k0 a] m IH]; simpl; intros Hnd.
  - split; [repeat constructor; by intros ?%elem_of_nil|].
    intros k' ?%list_elem_of_singleton. by left.
  - apply NoDup_cons in Hnd as [Hk0 Hnd].
    destruct (String.eqb_spec k0 k) as [->|Hne]; simpl.
    + split; [by apply NoDup_cons|]. intros k' Hk'. by right.
    + destruct (IH Hnd) as [IH1 IH2]. split.
      * apply NoDup_cons. split; [|done].
        intros [->|Hin]%IH2; done.
      * intros k' [->|Hk']%elem_of_cons; [right; by left|].
        destruct (IH2 _ Hk'); [by left|right; by right].
Qed.

Lemma keys_paprika_step acc pd :
  NoDup (List.map fst acc) -> NoDup (List.map fst (paprika_step acc pd)).
Proof.
  intros Hnd. unfold Coinpaprika.paprika_step.
  destruct (CoinGecko.touches_converter_currency pd); [done|].
  destruct (py_le _ 0); [done|]. by apply keys_update_entry.
Qed.

Lemma keys_fold_paprika_step l acc :
  NoDup (List.map fst acc) -> NoDup (List.map fst (fold_left paprika_step l acc)).
Proof.
  revert acc. induction l as [|pd l IH]; intros acc Hnd; simpl; [done|].
  by apply IH, keys_paprika_step.
Qed.

Lemma lookup_entry_elem m k a :
  NoDup (List.map fst m) -> (k, a) ∈ m -> lookup_entry m k = Some a.
Proof.
  unfold lookup_entry.
  induction m as [|[k' a'] m IH]; intros Hnd Hin; [by apply elem_of_nil in Hin|].
  simpl in *. apply NoDup_cons in Hnd as [Hk' Hnd].
  apply elem_of_cons in Hin as [[= <- <-]|Hin].
  - by rewrite String.eqb_refl.
  - destruct (String.eqb_spec k' k) as [->|Hne]; [|by apply IH].
    destruct Hk'. apply list_elem_of_In, in_map_iff. exists (k, a).
    by rewrite <- list_elem_of_In.
Qed.

Lemma lookup_paprika_step acc pd k :
  lookup_entry (paprika_step acc pd) k =
  if counted pd && String.eqb (pair_key_of pd) k
  then Some (absorb (default fresh_aggregate (lookup_entry acc k)) pd)
  else lookup_entry acc k.
Proof.
  unfold Coinpaprika.paprika_step, counted, py_gt, py_lt, py_le.
  destruct (CoinGecko.touches_converter_currency pd); simpl; [done|].
  destruct (Qle_bool _ 0); simpl; [done|].
  rewrite lookup_update_entry. unfold Coinpaprika.pair_key_of.
  match goal with |- context [String.eqb ?key k] =>
    by destruct (String.eqb_spec key k) as [<-|] end.
Qed.

Lemma lookup_fold_paprika_step l acc k :
  lookup_entry (fold_left paprika_step l acc) k =
  match contributors k l with
  | [] => lookup_entry acc k
  | cs => Some (fold_left absorb cs (default fresh_aggregate (lookup_entry acc k)))
  end.
Proof.
  revert acc. induction l as [|pd l IH]; intros acc; simpl; [done|].
  rewrite IH, lookup_paprika_step. unfold Coinpaprika.contributors. simpl.
  destruct (counted pd && String.eqb (pair_key_of pd) k); simpl; [|done].
  by destruct (List.filter _ l).
Qed.

Lemma absorb_totals cs agg :
  let r := fold_left absorb cs agg in
  base_volume r == base_volume agg + total DataIntegration.base_volume cs /\
  target_volume r == target_volume agg + total DataIntegration.target_volume cs /\
  price_sum r == price_sum agg +
    total (fun pd => effective_price pd * DataIntegration.target_volume pd)
      (List.filter priced cs) /\
  price_weight r == price_weight agg +
    total DataIntegration.target_volume (List.filter priced cs) /\
  count r = (count agg + length cs)%nat /\
  valid_prices r = valid_prices agg || existsb priced cs.
Proof.
  revert agg. induction cs as [|pd cs IH]; intros agg; simpl.
  - unfold total. simpl. rewrite orb_false_r, Nat.add_0_r.
    repeat split; ring.
  - destruct (IH (absorb agg pd)) as (H1 & H2 & H3 & H4 & H5 & H6).
    rewrite H1, H2, H3, H4, H5, H6. simpl. unfold priced, total.
    destruct (py_gt (effective_price pd) 0); simpl;
      (repeat split; try ring; try lia); by rewrite ?orb_true_r.
Qed.

Lemma lookup_paprika_aggregation pairs_data k :
  lookup_entry (paprika_aggregation pairs_data) k =
  match contributors k pairs_data with
  | [] => None
  | cs => Some (fold_left absorb cs fresh_aggregate)
  end.
Proof. apply lookup_fold_paprika_step. Qed.

Lemma py_gt_comp x y : x == y -> py_gt x 0 = py_gt y 0.
Proof.
  intros H. unfold py_gt.
  destruct (py_lt 0 x) eqn:Hx, (py_lt 0 y) eqn:Hy; try done.
  - apply py_lt_spec in Hx. apply py_lt_false in Hy. lra.
  - apply py_lt_spec in Hy. apply py_lt_false in Hx. lra.
Qed.

Lemma existsb_filter {A} (f : A -> bool) (l : list A) :
  existsb f l = false -> List.filter f l = [].
Proof.
  induction l as [|x l IH]; simpl; [done|].
  destruct (f x); simpl; [done|exact IH].
Qed.

Lemma contributors_counted k pairs_data pd :
  In pd (contributors k pairs_data) ->
  CoinGecko.touches_converter_currency pd = false /\
  0 < DataIntegration.base_volume pd /\ pair_key_of pd = k /\ In pd pairs_data.
Proof.
  unfold Coinpaprika.contributors. rewrite filter_In.
  intros [Hin [[Ht Hv%py_lt_spec]%andb_true_iff Hk%String.eqb_eq]%andb_true_iff].
  by apply negb_true_iff in Ht.
Qed.


End Mapping.


End CoinpaprikaFacts.
